(** * Family graph: the visibility gate and the dietary value filter

    A shallow embedding of [src/types/family.ts], [src/lib/visibility-gate.ts]
    and the [value_filter] part of [src/lib/livo/filters.ts], followed by the
    properties of the gate and of the filter.

    Conventions of the embedding:
    - a JS string is a [string]; [===] on strings is [String.eqb];
      [s.startsWith("m-")] is [String.prefix "m-" s];
    - an optional field ([riskLevel?], [visibility?], ...) is an [option];
      [undefined] and [null] are [None];
    - [Array.prototype.filter], [find], [some], [map] and [includes] are
      [filter], [find], [existsb], [map] and [existsb (String.eqb _)];
    - the [Set] of visible ids is the list of ids it is built from, with
      [has] as membership test. *)

From Stdlib Require Import String Ascii List Bool ZArith Lia DecimalString.
Import ListNotations.
Open Scope string_scope.
Open Scope bool_scope.
Open Scope list_scope.

(* ------------------------------------------------------------------ *)
(** ** The data model ([src/types/family.ts])                          *)
(* ------------------------------------------------------------------ *)

Inductive NodeType : Type :=
  | member | preference | device | document | house_rule | health.

Inductive RiskLevel : Type := low | medium | high.

(** The four declared values of [Visibility], and one more for any
    other value a node carries at run time: the type is not enforced on
    imported data, and the gate compares the field with the four names
    only. *)
Inductive Visibility : Type :=
  | private | family | guarded | health_only
  | unrecognized_visibility.

Inductive Role : Type :=
  | parent | child | grandparent | sibling | caregiver | other.

Inductive Gender : Type := male | female.

Inductive AdminLevel : Type := primary | secondary.

Inductive Category : Type := food | activity | other_category.

Inductive Sentiment : Type := likes | dislikes | avoids | loves.

Inductive DocType : Type :=
  | recipe | schedule | note | list_doc | project | financial.

Inductive Severity : Type := severity_low | moderate | critical.

(** The variant part of a [FamilyNode]: the fields each interface adds to
    [BaseNode].  The constructor is the [type] tag. *)
Inductive NodeData : Type :=
  | MemberNode (role : Role) (gender : option Gender) (age : option Z)
               (healthTags : option (list string))
               (adminLevel : option AdminLevel)
  | PreferenceNode (category : Category) (sentiment : Sentiment)
  | DeviceNode (platform : string) (os : option string)
  | DocumentNode (docType : DocType) (url : option string)
  | HealthNode (condition : string) (severity : option Severity)
  | HouseRuleNode (trigger : string) (condition : string) (action : string).

(** [BaseNode] together with the variant. *)
Record FamilyNode : Type := mkNode {
  id : string;
  label : string;
  riskLevel : option RiskLevel;
  visibility : option Visibility;
  isAchievement : option bool;
  data : NodeData
}.

Definition type (n : FamilyNode) : NodeType :=
  match data n with
  | MemberNode _ _ _ _ _ => member
  | PreferenceNode _ _ => preference
  | DeviceNode _ _ => device
  | DocumentNode _ _ => document
  | HealthNode _ _ => health
  | HouseRuleNode _ _ _ => house_rule
  end.

(** [node.role]: defined on member nodes only. *)
Definition role (n : FamilyNode) : option Role :=
  match data n with
  | MemberNode r _ _ _ _ => Some r
  | _ => None
  end.

(** [node.docType]: defined on document nodes only. *)
Definition docType (n : FamilyNode) : option DocType :=
  match data n with
  | DocumentNode d _ => Some d
  | _ => None
  end.

(** [node.healthTags]: an optional field of member nodes. *)
Definition healthTags (n : FamilyNode) : option (list string) :=
  match data n with
  | MemberNode _ _ _ tags _ => tags
  | _ => None
  end.

(** [node.category] and [node.sentiment]: preference nodes only. *)
Definition category (n : FamilyNode) : option Category :=
  match data n with
  | PreferenceNode c _ => Some c
  | _ => None
  end.

Definition sentiment (n : FamilyNode) : option Sentiment :=
  match data n with
  | PreferenceNode _ s => Some s
  | _ => None
  end.

(** [node.condition]: a field of health nodes and of house rules. *)
Definition condition (n : FamilyNode) : option string :=
  match data n with
  | HealthNode c _ => Some c
  | HouseRuleNode _ c _ => Some c
  | _ => None
  end.

(** [node.severity]: an optional field of health nodes. *)
Definition severity (n : FamilyNode) : option Severity :=
  match data n with
  | HealthNode _ s => s
  | _ => None
  end.

Inductive EdgeRelation : Type :=
  | parent_of | child_of | spouse_of | sibling_of | grandparent_of
  | has_preference | has_health_condition | caregiver_of | owns_device
  | authored | related_to | installed_on | created_by | applies_to.

Record Edge : Type := mkEdge {
  edge_id : string;
  source : string;
  target : string;
  relation : EdgeRelation;
  edge_label : option string;
  weight : option Z
}.

Inductive SynapseImpact : Type := Positive | Negative | Neutral.

Record SynapseEvent : Type := mkSynapseEvent {
  event_id : string;
  description : string;
  impact : SynapseImpact;
  intensity : Z;
  involvedMembers : list string;
  timestamp : option string
}.

Record FamilyGraph : Type := mkGraph {
  nodes : list FamilyNode;
  edges : list Edge;
  synapseEvents : option (list SynapseEvent)
}.

(** Decidable equality on the enumerations the code compares with [===]. *)

Definition NodeType_eqb (a b : NodeType) : bool :=
  match a, b with
  | member, member | preference, preference | device, device
  | document, document | house_rule, house_rule | health, health => true
  | _, _ => false
  end.

Definition EdgeRelation_eqb (a b : EdgeRelation) : bool :=
  match a, b with
  | parent_of, parent_of | child_of, child_of | spouse_of, spouse_of
  | sibling_of, sibling_of | grandparent_of, grandparent_of
  | has_preference, has_preference
  | has_health_condition, has_health_condition
  | caregiver_of, caregiver_of | owns_device, owns_device
  | authored, authored | related_to, related_to
  | installed_on, installed_on | created_by, created_by
  | applies_to, applies_to => true
  | _, _ => false
  end.

(** [viewerRole === "caregiver"], on a possibly undefined role. *)
Definition is_caregiver (r : option Role) : bool :=
  match r with
  | Some caregiver => true
  | _ => false
  end.

(** [node.isAchievement] used as a condition. *)
Definition flagSet (o : option bool) : bool :=
  match o with
  | Some b => b
  | None => false
  end.

(** [node.riskLevel === "high"]. *)
Definition is_high (r : option RiskLevel) : bool :=
  match r with
  | Some high => true
  | _ => false
  end.

Definition Visibility_eqb (a b : Visibility) : bool :=
  match a, b with
  | private, private | family, family | guarded, guarded
  | health_only, health_only
  | unrecognized_visibility, unrecognized_visibility => true
  | _, _ => false
  end.

(** [node.visibility ?? "family"]. *)
Definition effectiveVisibility (n : FamilyNode) : Visibility :=
  match visibility n with
  | Some v => v
  | None => family
  end.

(** JS truthiness of a [string | null]: [null] and the empty string are
    falsy. *)
Definition truthy (o : option string) : bool :=
  match o with
  | Some s => negb (s =? "")
  | None => false
  end.

(** [ownerId === viewerId] where [ownerId] may be [null]. *)
Definition owner_is (o : option string) (viewerId : string) : bool :=
  match o with
  | Some s => s =? viewerId
  | None => false
  end.

(* ------------------------------------------------------------------ *)
(** ** The visibility gate ([src/lib/visibility-gate.ts])              *)
(* ------------------------------------------------------------------ *)

Module VisibilityGate.

(** Find the owner of a node by walking the edges: the first edge that
    links [nodeId] to an id with the member prefix, in either direction. *)
Fixpoint findOwner (nodeId : string) (edges : list Edge) : option string :=
  match edges with
  | [] => None
  | edge :: rest =>
      if (target edge =? nodeId) && prefix "m-" (source edge)
      then Some (source edge)
      else if (source edge =? nodeId) && prefix "m-" (target edge)
      then Some (target edge)
      else findOwner nodeId rest
  end.

(** The three relation queries share one shape. *)
Definition hasRelation (r : EdgeRelation) (a b : string)
    (edges : list Edge) : bool :=
  existsb (fun e => EdgeRelation_eqb (relation e) r
                    && (source e =? a) && (target e =? b)) edges.

Definition isParentOf (viewerId ownerId : string) (edges : list Edge) : bool :=
  hasRelation parent_of viewerId ownerId edges.

Definition isGrandparentOf (viewerId ownerId : string)
    (edges : list Edge) : bool :=
  hasRelation grandparent_of viewerId ownerId edges.

Definition isCaregiverOf (viewerId ownerId : string)
    (edges : list Edge) : bool :=
  hasRelation caregiver_of viewerId ownerId edges.

Definition isFinancialDoc (node : FamilyNode) : bool :=
  match data node with
  | DocumentNode financial _ => true
  | _ => false
  end.

(** [viewerNode?.role] for [viewerNode = graph.nodes.find(n => n.id === viewerId)]. *)
Definition viewerRoleOf (graph : FamilyGraph) (viewerId : string)
    : option Role :=
  match find (fun n => id n =? viewerId) (nodes graph) with
  | Some viewerNode => role viewerNode
  | None => None
  end.

(** [careTargets.includes(ownerId)] of the health_only branch. *)
Definition careTargets (viewerId : string) (edges : list Edge) : list string :=
  map target
    (filter (fun e => EdgeRelation_eqb (relation e) caregiver_of
                      && (source e =? viewerId)) edges).

Definition includes (l : list string) (x : string) : bool :=
  existsb (fun y => y =? x) l.

(** The callback of the first [filter]: the per-node decision, branch by
    branch as in the source.  [withOwner ownerId f] is [ownerId && f(ownerId)]. *)
Definition withOwner (ownerId : option string) (f : string -> bool) : bool :=
  match ownerId with
  | Some o => truthy ownerId && f o
  | None => false
  end.

Definition nodeVisible (edges : list Edge) (viewerId : string)
    (viewerRole : option Role) (node : FamilyNode) : bool :=
  (* Achievements are always visible *)
  if flagSet (isAchievement node) then true
  (* Member nodes are always visible *)
  else if NodeType_eqb (type node) member then true
  else
    let visibility := effectiveVisibility node in
    (* Family-visible nodes are open to all *)
    if Visibility_eqb visibility family then true
    else
      let ownerId := findOwner (id node) edges in
      (* If the viewer owns this node, they can always see it *)
      if owner_is ownerId viewerId then true
      else if Visibility_eqb visibility health_only then
        match ownerId with
        | None => false
        | Some o =>
            if negb (truthy ownerId) then false
            else if isParentOf viewerId o edges then true
            else if isGrandparentOf viewerId o edges then true
            else if isCaregiverOf viewerId o edges then true
            else if is_caregiver viewerRole
                    && includes (careTargets viewerId edges) o then true
            else false
        end
      else if Visibility_eqb visibility guarded then
        if is_caregiver viewerRole then false
        else if withOwner ownerId (fun o => isParentOf viewerId o edges)
        then true
        else if withOwner ownerId (fun o => isGrandparentOf viewerId o edges)
        then true
        else if is_high (riskLevel node)
                && withOwner ownerId (fun o => isParentOf o viewerId edges)
        then true
        else false
      else if Visibility_eqb visibility private then
        if is_high (riskLevel node)
           && withOwner ownerId (fun o => isParentOf viewerId o edges)
        then true
        else false
      else true.

(** The callback of the second [filter]: caregivers never get a financial
    document. *)
Definition notWithheld (viewerRole : option Role) (node : FamilyNode) : bool :=
  if is_caregiver viewerRole && isFinancialDoc node then false else true.

Definition applyVisibilityGate (graph : FamilyGraph) (viewerId : string)
    : FamilyGraph :=
  let viewerRole := viewerRoleOf graph viewerId in
  let visibleNodes :=
    filter (nodeVisible (edges graph) viewerId viewerRole) (nodes graph) in
  let filteredNodes := filter (notWithheld viewerRole) visibleNodes in
  let visibleIds := map id filteredNodes in
  let visibleEdges :=
    filter (fun e => includes visibleIds (source e)
                     && includes visibleIds (target e)) (edges graph) in
  {| nodes := filteredNodes; edges := visibleEdges; synapseEvents := None |}.

End VisibilityGate.

(* ------------------------------------------------------------------ *)
(** ** The gate without the caregiver-role clause                      *)
(* ------------------------------------------------------------------ *)

(** The gate as the specification words the health_only rule once the
    fourth disjunct (viewer's role is caregiver and the owner is among the
    viewer's [caregiver_of] targets) is left out: disclosed iff the owner
    exists and the viewer is parent, grandparent or caregiver of the owner.
    Every other branch is the one of [VisibilityGate.nodeVisible]. *)
Module PlainGate.
Import VisibilityGate.

Definition nodeVisible (edges : list Edge) (viewerId : string)
    (viewerRole : option Role) (node : FamilyNode) : bool :=
  if flagSet (isAchievement node) then true
  else if NodeType_eqb (type node) member then true
  else
    let visibility := effectiveVisibility node in
    if Visibility_eqb visibility family then true
    else
      let ownerId := findOwner (id node) edges in
      if owner_is ownerId viewerId then true
      else if Visibility_eqb visibility health_only then
        match ownerId with
        | None => false
        | Some o =>
            if negb (truthy ownerId) then false
            else if isParentOf viewerId o edges then true
            else if isGrandparentOf viewerId o edges then true
            else if isCaregiverOf viewerId o edges then true
            else false
        end
      else if Visibility_eqb visibility guarded then
        if is_caregiver viewerRole then false
        else if withOwner ownerId (fun o => isParentOf viewerId o edges)
        then true
        else if withOwner ownerId (fun o => isGrandparentOf viewerId o edges)
        then true
        else if is_high (riskLevel node)
                && withOwner ownerId (fun o => isParentOf o viewerId edges)
        then true
        else false
      else if Visibility_eqb visibility private then
        if is_high (riskLevel node)
           && withOwner ownerId (fun o => isParentOf viewerId o edges)
        then true
        else false
      else true.

Definition applyVisibilityGate (graph : FamilyGraph) (viewerId : string)
    : FamilyGraph :=
  let viewerRole := viewerRoleOf graph viewerId in
  let visibleNodes :=
    filter (nodeVisible (edges graph) viewerId viewerRole) (nodes graph) in
  let filteredNodes := filter (notWithheld viewerRole) visibleNodes in
  let visibleIds := map id filteredNodes in
  let visibleEdges :=
    filter (fun e => includes visibleIds (source e)
                     && includes visibleIds (target e)) (edges graph) in
  {| nodes := filteredNodes; edges := visibleEdges; synapseEvents := None |}.

End PlainGate.

(* ------------------------------------------------------------------ *)
(** ** The value filter ([src/lib/livo/filters.ts])                    *)
(* ------------------------------------------------------------------ *)

Module Filters.

Inductive RestrictionSource : Type := from_preference | from_health.

Record DietaryRestriction : Type := mkRestriction {
  memberId : string;
  memberLabel : string;
  r_source : RestrictionSource;
  r_label : string;
  r_sentiment : option Sentiment;
  r_severity : option Severity
}.

(** Case folding of the [i] flag: without the [u] flag a pattern letter
    matches its two ASCII cases only. *)
Definition lowerAscii (c : ascii) : ascii :=
  let n := nat_of_ascii c in
  if (65 <=? n)%nat && (n <=? 90)%nat then ascii_of_nat (n + 32) else c.

Fixpoint lowerString (s : string) : string :=
  match s with
  | EmptyString => EmptyString
  | String c rest => String (lowerAscii c) (lowerString rest)
  end.

(** [pat] occurs somewhere in [s]. *)
Fixpoint occursIn (pat s : string) : bool :=
  prefix pat s
  || match s with
     | EmptyString => false
     | String _ rest => occursIn pat rest
     end.

(** [/diet|salt|sugar|gluten|lactose|allerg|intoleran/i.test(s)]. *)
Definition dietaryKeywords_test (s : string) : bool :=
  existsb (fun kw => occursIn kw (lowerString s))
    ["diet"; "salt"; "sugar"; "gluten"; "lactose"; "allerg"; "intoleran"].

(** [RegExp.prototype.test] converts its argument to a string: a missing
    field is tested as the text ["undefined"]. *)
Definition dietaryKeywords_test_field (o : option string) : bool :=
  dietaryKeywords_test (match o with Some s => s | None => "undefined" end).

(** [edge.source.startsWith("m-") ? edge.source : edge.target] and the
    opposite end. *)
Definition memberEnd (edge : Edge) : string :=
  if prefix "m-" (source edge) then source edge else target edge.

Definition otherEnd (edge : Edge) : string :=
  if prefix "m-" (source edge) then target edge else source edge.

Definition findNode (nodes : list FamilyNode) (x : string)
    : option FamilyNode :=
  find (fun n => id n =? x) nodes.

(** Body of the first loop: one [has_preference] edge. *)
Definition preferenceStep (nodes : list FamilyNode)
    (restrictions : list DietaryRestriction) (edge : Edge)
    : list DietaryRestriction :=
  match findNode nodes (memberEnd edge), findNode nodes (otherEnd edge) with
  | Some mem, Some pref =>
      match category pref with
      | Some food =>
          restrictions ++
          [ {| memberId := id mem; memberLabel := label mem;
               r_source := from_preference; r_label := label pref;
               r_sentiment := sentiment pref; r_severity := None |} ]
      | _ => restrictions
      end
  | _, _ => restrictions
  end.

(** Body of the second loop: one [has_health_condition] edge. *)
Definition healthStep (nodes : list FamilyNode)
    (restrictions : list DietaryRestriction) (edge : Edge)
    : list DietaryRestriction :=
  match findNode nodes (memberEnd edge), findNode nodes (otherEnd edge) with
  | Some mem, Some hlth =>
      if dietaryKeywords_test (label hlth)
         || dietaryKeywords_test_field (condition hlth)
      then
        restrictions ++
        [ {| memberId := id mem; memberLabel := label mem;
             r_source := from_health; r_label := label hlth;
             r_sentiment := None; r_severity := severity hlth |} ]
      else restrictions
  | _, _ => restrictions
  end.

(** The restriction pushed for a health tag. *)
Definition tagRestriction (mem : FamilyNode) (tag : string)
    : DietaryRestriction :=
  {| memberId := id mem; memberLabel := label mem;
     r_source := from_health; r_label := tag;
     r_sentiment := None; r_severity := None |}.

(** [restrictions.some(r => r.memberId === member.id && r.label === tag)]. *)
Definition alreadyHas (restrictions : list DietaryRestriction)
    (mem : FamilyNode) (tag : string) : bool :=
  existsb (fun r => (memberId r =? id mem) && (r_label r =? tag)) restrictions.

(** Body of the inner loop of the third pass: one tag of one member. *)
Definition tagStep (mem : FamilyNode)
    (restrictions : list DietaryRestriction) (tag : string)
    : list DietaryRestriction :=
  if negb (alreadyHas restrictions mem tag)
  then restrictions ++ [tagRestriction mem tag]
  else restrictions.

(** Body of the outer loop of the third pass: one member. *)
Definition memberStep (restrictions : list DietaryRestriction)
    (mem : FamilyNode) : list DietaryRestriction :=
  match healthTags mem with
  | Some tags => fold_left (tagStep mem) tags restrictions
  | None => restrictions
  end.

Definition prefEdges (edges : list Edge) : list Edge :=
  filter (fun e => EdgeRelation_eqb (relation e) has_preference) edges.

Definition healthEdges (edges : list Edge) : list Edge :=
  filter (fun e => EdgeRelation_eqb (relation e) has_health_condition) edges.

Definition members (nodes : list FamilyNode) : list FamilyNode :=
  filter (fun n => NodeType_eqb (type n) member) nodes.

(** The [restrictions] field of [value_filter(nodes, edges)]; the two text
    fields [instruction] and [cpNote] are rendered from it. *)
Definition value_filter (nodes : list FamilyNode) (edges : list Edge)
    : list DietaryRestriction :=
  let afterPreferences :=
    fold_left (preferenceStep nodes) (prefEdges edges) [] in
  let afterHealth :=
    fold_left (healthStep nodes) (healthEdges edges) afterPreferences in
  fold_left memberStep (members nodes) afterHealth.

End Filters.

(* ------------------------------------------------------------------ *)
(** ** Sample graphs                                                   *)
(* ------------------------------------------------------------------ *)

Module Samples.

Definition memberOf (i lbl : string) (r : Role) : FamilyNode :=
  mkNode i lbl None None None (MemberNode r None None None None).

Definition taggedMember (i lbl : string) (r : Role) (tags : list string)
    : FamilyNode :=
  mkNode i lbl None None None (MemberNode r None None (Some tags) None).

Definition deviceOf (i lbl : string) (risk : option RiskLevel)
    (vis : option Visibility) : FamilyNode :=
  mkNode i lbl risk vis None (DeviceNode "phone" None).

Definition documentOf (i lbl : string) (d : DocType)
    (risk : option RiskLevel) (vis : option Visibility)
    (ach : option bool) : FamilyNode :=
  mkNode i lbl risk vis ach (DocumentNode d None).

Definition healthOf (i lbl cond : string) (vis : option Visibility)
    : FamilyNode :=
  mkNode i lbl None vis None (HealthNode cond None).

Definition preferenceOf (i lbl : string) (c : Category) (s : Sentiment)
    : FamilyNode :=
  mkNode i lbl None None None (PreferenceNode c s).

Definition edgeOf (i s t : string) (r : EdgeRelation) : Edge :=
  mkEdge i s t r None None.

Definition dad := memberOf "m-dad" "Dad" parent.
Definition kid := memberOf "m-kid" "Kid" child.
Definition sis := memberOf "m-sis" "Sis" sibling.
Definition nanny := memberOf "m-nanny" "Nanny" caregiver.

Definition phone := deviceOf "d-phone" "Phone" (Some high) (Some private).
Definition taxes :=
  documentOf "doc-taxes" "Taxes" financial None (Some guarded) None.
Definition trophy :=
  documentOf "doc-trophy" "Trophy" note None (Some private) (Some true).
Definition diabetes :=
  healthOf "h-diabetes" "Diabetes" "Low-Salt Diet" (Some health_only).

(** The household of the example scenarios: Dad is parent of Kid, Kid owns
    a risky private phone and a private trophy, Dad owns the guarded tax
    file and has a health record, Nanny is caregiver of Dad. *)
Definition household : FamilyGraph :=
  {| nodes := [dad; kid; sis; nanny; phone; taxes; trophy; diabetes];
     edges := [ edgeOf "e1" "m-dad" "m-kid" parent_of;
                edgeOf "e2" "m-kid" "d-phone" owns_device;
                edgeOf "e3" "m-dad" "doc-taxes" authored;
                edgeOf "e4" "m-kid" "doc-trophy" authored;
                edgeOf "e5" "m-dad" "h-diabetes" has_health_condition;
                edgeOf "e6" "m-nanny" "m-dad" caregiver_of ];
     synapseEvents := None |}.

(** A financial document flagged as an achievement. *)
Definition bonus :=
  documentOf "doc-bonus" "Bonus" financial None (Some private) (Some true).

(** A guarded achievement, and a guarded device that Nanny owns. *)
Definition medal :=
  documentOf "doc-medal" "Medal" note None (Some guarded) (Some true).
Definition tablet := deviceOf "d-tablet" "Tablet" None (Some guarded).

(** Nanny's own payslips: a private financial document. *)
Definition payslip :=
  documentOf "doc-payslip" "Payslips" financial None (Some private) None.

(** A risky private financial document of Kid, and a risky private
    achievement of Kid. *)
Definition loan :=
  documentOf "doc-loan" "Loan" financial (Some high) (Some private) None.
Definition stunt :=
  documentOf "doc-stunt" "Stunt" note (Some high) (Some private) (Some true).

(** Two member nodes that carry a visibility of their own: a guarded
    uncle, and a private, high-risk cousin linked to Kid. *)
Definition uncle :=
  mkNode "m-uncle" "Uncle" None (Some guarded) None
    (MemberNode other None None None None).
Definition cousin :=
  mkNode "m-cousin" "Cousin" (Some high) (Some private) None
    (MemberNode child None None None None).

Definition caregiverHousehold : FamilyGraph :=
  {| nodes := [kid; sis; nanny; bonus; medal; tablet; payslip; loan; stunt;
               uncle; cousin];
     edges := [ edgeOf "e1" "m-nanny" "m-kid" parent_of;
                edgeOf "e2" "m-kid" "doc-bonus" authored;
                edgeOf "e3" "m-kid" "doc-medal" authored;
                edgeOf "e4" "m-nanny" "d-tablet" owns_device;
                edgeOf "e5" "m-nanny" "doc-payslip" authored;
                edgeOf "e6" "m-kid" "doc-loan" authored;
                edgeOf "e7" "m-kid" "doc-stunt" authored;
                edgeOf "e8" "m-kid" "m-cousin" sibling_of ];
     synapseEvents := None |}.

(** A gadget imported with a visibility outside the declared values,
    linked to Kid, beside Kid's risky private phone. *)
Definition gadget :=
  deviceOf "d-gadget" "Gadget" None (Some unrecognized_visibility).

Definition importedHousehold : FamilyGraph :=
  {| nodes := [dad; kid; phone; gadget];
     edges := [ edgeOf "e1" "m-dad" "m-kid" parent_of;
                edgeOf "e2" "m-kid" "d-phone" owns_device;
                edgeOf "e3" "m-kid" "d-gadget" owns_device ];
     synapseEvents := None |}.

(** A document that carries the id of the caregiver and precedes her in
    the node list, and a family-visible financial document. *)
Definition namesake :=
  documentOf "m-nanny" "Nanny's folder" note None None None.
Definition invoice :=
  documentOf "doc-invoice" "Invoice" financial None None None.

Definition duplicateIds : FamilyGraph :=
  {| nodes := [namesake; nanny; invoice];
     edges := [];
     synapseEvents := None |}.

(** A graph with dangling edges: no node has the id [m-ghost]. *)
Definition record := healthOf "h-record" "Record" "Asthma" (Some health_only).

(** A graph without dangling edges in which a device, not a member, is
    recorded as parent of Kid. *)
Definition camera := deviceOf "d-cam" "Camera" None (Some private).
Definition diary :=
  documentOf "doc-diary" "Diary" note (Some high) (Some private) None.

Definition deviceAsParent : FamilyGraph :=
  {| nodes := [kid; camera; diary];
     edges := [ edgeOf "e1" "d-cam" "m-kid" parent_of;
                edgeOf "e2" "m-kid" "doc-diary" authored ];
     synapseEvents := None |}.

Definition dangling : FamilyGraph :=
  {| nodes := [dad; record; phone];
     edges := [ edgeOf "e1" "m-ghost" "h-record" has_health_condition;
                edgeOf "e2" "m-dad" "m-ghost" parent_of;
                edgeOf "e3" "m-ghost" "d-phone" owns_device ];
     synapseEvents := None |}.

(** Input of the value filter: Grandma avoids meat both as a food
    preference and as a health tag; her health node is a low-salt diet. *)
Definition grandma :=
  taggedMember "m-grandma" "Grandma" grandparent ["No Meat"; "Low-Salt Diet"; "Naps"].
Definition noMeat := preferenceOf "p-meat" "No Meat" food avoids.
Definition lowSalt := healthOf "h-salt" "Low-Salt Diet" "Hypertension" None.

Definition dinerNodes : list FamilyNode := [grandma; noMeat; lowSalt].
Definition dinerEdges : list Edge :=
  [ edgeOf "e1" "m-grandma" "p-meat" has_preference;
    edgeOf "e2" "m-grandma" "h-salt" has_health_condition ].

End Samples.

(* ------------------------------------------------------------------ *)
(** ** Predicates on graphs, viewers and nodes used by the statements  *)
(* ------------------------------------------------------------------ *)

Module Shape.
Import VisibilityGate.

(** The nodes the first three rules disclose to everybody: achievements,
    member nodes, and nodes whose effective visibility is family. *)
Definition openNode (n : FamilyNode) : bool :=
  flagSet (isAchievement n)
  || NodeType_eqb (type n) member
  || Visibility_eqb (effectiveVisibility n) family.

(** The nodes that fall through every branch to the final [return true]:
    their visibility is none of the four declared values. *)
Definition failsOpen (n : FamilyNode) : bool :=
  Visibility_eqb (effectiveVisibility n) unrecognized_visibility.

(** [v] is the id of no node of the graph. *)
Definition noNodeHasId (g : FamilyGraph) (v : string) : bool :=
  forallb (fun n => negb (id n =? v)) (nodes g).

(** [v] is neither the source nor the target of an edge of the graph. *)
Definition noEdgeTouches (g : FamilyGraph) (v : string) : bool :=
  forallb (fun e => negb (source e =? v) && negb (target e =? v)) (edges g).

(** [x] is the id of a member node of the graph. *)
Definition isMemberId (g : FamilyGraph) (x : string) : bool :=
  existsb (fun n => (id n =? x) && NodeType_eqb (type n) member) (nodes g).

(** Every edge end that carries the member prefix, or that is the viewer,
    is the id of a member node of the graph.  Edges may still dangle at
    their other ends. *)
Definition memberEndsResolve (g : FamilyGraph) (v : string) : bool :=
  let resolves x :=
    if prefix "m-" x || (x =? v) then isMemberId g x else true in
  forallb (fun e => resolves (source e) && resolves (target e)) (edges g).

(** Every node that carries the viewer's id is a member node. *)
Definition viewerOnlyMember (g : FamilyGraph) (v : string) : bool :=
  forallb (fun n => if id n =? v then NodeType_eqb (type n) member else true)
    (nodes g).

End Shape.

(** The third pass of the value filter seen as one loop over the
    (member, tag) pairs, and the restrictions it starts from. *)
Module TagPass.
Import Filters.

(** Source (a) alone: what the first loop pushes. *)
Definition preferenceDerived (nodes : list FamilyNode) (edges : list Edge)
    : list DietaryRestriction :=
  fold_left (preferenceStep nodes) (prefEdges edges) [].

(** Source (b) alone: what the second loop pushes. *)
Definition healthDerived (nodes : list FamilyNode) (edges : list Edge)
    : list DietaryRestriction :=
  fold_left (healthStep nodes) (healthEdges edges) [].

(** The (member, tag) pairs in the order the nested loops visit them. *)
Definition tagPairs (nodes : list FamilyNode) : list (FamilyNode * string) :=
  flat_map (fun mem => match healthTags mem with
                       | Some tags => map (pair mem) tags
                       | None => []
                       end) (members nodes).

Definition pairStep (restrictions : list DietaryRestriction)
    (mt : FamilyNode * string) : list DietaryRestriction :=
  tagStep (fst mt) restrictions (snd mt).

(** The restriction list once the pairs [visited] have been examined. *)
Definition tagPass (nodes : list FamilyNode) (edges : list Edge)
    (visited : list (FamilyNode * string)) : list DietaryRestriction :=
  fold_left pairStep visited
    (preferenceDerived nodes edges ++ healthDerived nodes edges).

(** Some restriction of [rs] has member id [i] and label [t]. *)
Definition hasKey (rs : list DietaryRestriction) (i t : string) : Prop :=
  exists r, In r rs /\ memberId r = i /\ r_label r = t.

(** Some pair of [visited] has a member with id [i] and the tag [t]. *)
Definition tagSeen (visited : list (FamilyNode * string)) (i t : string)
    : Prop :=
  exists mem, In (mem, t) visited /\ id mem = i.

End TagPass.

(** Vocabulary for the statements about owner resolution and about the
    restricted visibility classes. *)
Module Policy.
Import VisibilityGate.

(** An edge links [x] to an id with the member prefix, in the sense of
    the two tests of [findOwner]. *)
Definition linksToMember (x : string) (e : Edge) : Prop :=
  (target e = x /\ prefix "m-" (source e) = true)
  \/ (source e = x /\ prefix "m-" (target e) = true).

(** A node that none of the first three rules discloses: not an
    achievement, not a member node, and not of effective visibility
    family. *)
Definition restricted (n : FamilyNode) : Prop :=
  isAchievement n <> Some true
  /\ type n <> member
  /\ effectiveVisibility n <> family.

End Policy.

(** Vocabulary for the statements about the restriction list. *)
Module Dedup.
Import Filters.

(** The pair the third pass deduplicates on. *)
Definition restrictionKey (r : DietaryRestriction) : string * string :=
  (memberId r, r_label r).

(** The restriction names a node of the list: its member id and member
    label are the id and the label of one node. *)
Definition namesNodeOf (nodes : list FamilyNode) (r : DietaryRestriction)
    : Prop :=
  exists n, In n nodes /\ id n = memberId r /\ label n = memberLabel r.

End Dedup.

(* ------------------------------------------------------------------ *)
(** ** Insertion-ordered maps                                          *)
(* ------------------------------------------------------------------ *)

(** A JS [Map] (and the own properties of an object indexed by ids) as
    an association list in insertion order: [set] on a present key
    replaces the value in place, [set] on a new key appends the entry. *)
Module JsMap.

Fixpoint get {V : Type} (m : list (string * V)) (k : string) : option V :=
  match m with
  | [] => None
  | (k', v) :: rest => if k' =? k then Some v else get rest k
  end.

Fixpoint set {V : Type} (m : list (string * V)) (k : string) (v : V)
    : list (string * V) :=
  match m with
  | [] => [(k, v)]
  | (k', v') :: rest =>
      if k' =? k then (k', v) :: rest else (k', v') :: set rest k v
  end.

End JsMap.

(* ------------------------------------------------------------------ *)
(** ** The texts of the value filter ([src/lib/livo/filters.ts])       *)
(* ------------------------------------------------------------------ *)

Module FilterText.
Import Filters.

Definition newline : string := String (ascii_of_nat 10) EmptyString.

(** [parts.join(sep)]. *)
Fixpoint join (sep : string) (parts : list string) : string :=
  match parts with
  | [] => EmptyString
  | [p] => p
  | p :: rest => (p ++ sep ++ join sep rest)%string
  end.

(** The text of a sentiment, as the preference node stores it. *)
Definition sentimentText (s : Sentiment) : string :=
  match s with
  | likes => "likes"
  | dislikes => "dislikes"
  | avoids => "avoids"
  | loves => "loves"
  end.

(** A length or a count inside a template literal. *)
Definition numberText (n : nat) : string :=
  DecimalString.NilEmpty.string_of_uint (Nat.to_uint n).

(** Body of the grouping loop of [buildFoodInstruction]. *)
Definition groupStep (byMember : list (string * list DietaryRestriction))
    (r : DietaryRestriction) : list (string * list DietaryRestriction) :=
  let existing :=
    match JsMap.get byMember (memberLabel r) with
    | Some rs => rs
    | None => []
    end in
  JsMap.set byMember (memberLabel r) (existing ++ [r]).

Definition groupByMember (restrictions : list DietaryRestriction)
    : list (string * list DietaryRestriction) :=
  fold_left groupStep restrictions [].

Definition renderPart (r : DietaryRestriction) : string :=
  match r_source r with
  | from_health => (r_label r ++ " (health)")%string
  | from_preference =>
      ((match r_sentiment r with
        | Some s => sentimentText s
        | None => "note"
        end) ++ ": " ++ r_label r)%string
  end.

Definition renderLine (entry : string * list DietaryRestriction) : string :=
  (fst entry ++ ": " ++ join ", " (map renderPart (snd entry)))%string.

Definition noRestrictionsText : string :=
  "No dietary restrictions detected. Order freely!".

Definition buildFoodInstruction (restrictions : list DietaryRestriction)
    : string :=
  if (length restrictions =? 0)%nat then noRestrictionsText
  else
    let lines := map renderLine (groupByMember restrictions) in
    ("Dietary constraints for this order:" ++ newline
     ++ join newline lines ++ newline ++ newline
     ++ "Please ensure all items comply with the above restrictions.")%string.

Definition isHealth (r : DietaryRestriction) : bool :=
  match r_source r with
  | from_health => true
  | from_preference => false
  end.

Definition isAvoidedPreference (r : DietaryRestriction) : bool :=
  match r_source r, r_sentiment r with
  | from_preference, Some avoids => true
  | _, _ => false
  end.

(** The [mustAvoid] list of [buildCpNote]. *)
Definition mustAvoid (restrictions : list DietaryRestriction) : list string :=
  map r_label (filter isHealth restrictions)
  ++ map r_label (filter isAvoidedPreference restrictions).

Definition noHardRestrictionsText : string :=
  "No hard restrictions — maximize CP値 (best value) freely!".

Definition buildCpNote (restrictions : list DietaryRestriction) : string :=
  if (length (mustAvoid restrictions) =? 0)%nat then noHardRestrictionsText
  else
    ("CP値 Tip: Look for set meals or family combos that satisfy all "
     ++ numberText (length (mustAvoid restrictions))
     ++ " restriction(s): " ++ join ", " (mustAvoid restrictions)
     ++ ". Shared dishes reduce per-person cost. Prioritize restaurants with clear allergen labeling.")%string.

(** The three fields of [value_filter(nodes, edges)]. *)
Record ValueFilterResult : Type := mkValueFilterResult {
  restrictions : list DietaryRestriction;
  instruction : string;
  cpNote : string
}.

Definition value_filter_result (nodes : list FamilyNode) (edges : list Edge)
    : ValueFilterResult :=
  let restrictions := value_filter nodes edges in
  {| restrictions := restrictions;
     instruction := buildFoodInstruction restrictions;
     cpNote := buildCpNote restrictions |}.

End FilterText.

(* ------------------------------------------------------------------ *)
(** ** The graph view built on the gate (the [FamilyGraph] component)  *)
(* ------------------------------------------------------------------ *)

(** The memoised values that the component derives from the gated graph
    [rawData], each as a function of what it depends on.  A [Set] of ids
    is the list of its elements in insertion order; an object indexed by
    node ids is the [JsMap] of its own properties, read and written as a
    plain object is. *)
Module GraphView.
Import VisibilityGate.

Record GraphSettingsState : Type := mkSettings {
  selectedId : option string;
  viewerId : string;
  showUnconnected : bool;
  showLeafNodes : bool;
  visibleTypes : NodeType -> bool;
  nodeSpacing : Z;
  linkLength : Z;
  linkForce : Z;
  centerForce : Z
}.

Record GraphLink : Type := mkLink {
  link_source : string;
  link_target : string;
  link_relation : EdgeRelation;
  link_label : option string;
  link_weight : option Z
}.

Record GraphData : Type := mkGraphData {
  shownNodes : list FamilyNode;
  links : list GraphLink
}.

(** [ids.add(x)]. *)
Definition add (ids : list string) (x : string) : list string :=
  if includes ids x then ids else ids ++ [x].

(** [extraNodes?.length] and [extraEdges?.length] used as conditions, and
    [extra ?? []]. *)
Definition hasLength {A : Type} (extra : option (list A)) : bool :=
  match extra with
  | Some (_ :: _) => true
  | _ => false
  end.

Definition orEmpty {A : Type} (extra : option (list A)) : list A :=
  match extra with
  | Some l => l
  | None => []
  end.

(** [fullData]: the graph handed to the gate.  [base] is the loaded data
    set. *)
Definition fullData (base : FamilyGraph) (overrideData : option FamilyGraph)
    (extraNodes : option (list FamilyNode))
    (extraEdges : option (list Edge)) : FamilyGraph :=
  match overrideData with
  | Some data => data
  | None =>
      if negb (hasLength extraNodes) && negb (hasLength extraEdges) then base
      else
        {| nodes := nodes base ++ orEmpty extraNodes;
           edges := edges base ++ orEmpty extraEdges;
           synapseEvents := None |}
  end.

(** [rawData]. *)
Definition rawData (base : FamilyGraph) (overrideData : option FamilyGraph)
    (extraNodes : option (list FamilyNode))
    (extraEdges : option (list Edge)) (settings : GraphSettingsState)
    : FamilyGraph :=
  applyVisibilityGate (fullData base overrideData extraNodes extraEdges)
    (viewerId settings).

(** The names that every plain object inherits from [Object.prototype]:
    reading one of them on an object that has no own property of that
    name yields the inherited function or object, not [undefined]. *)
Definition objectPrototypeKeys : list string :=
  [ "constructor"; "hasOwnProperty"; "isPrototypeOf";
    "propertyIsEnumerable"; "toLocaleString"; "toString"; "valueOf";
    "__proto__"; "__defineGetter__"; "__defineSetter__";
    "__lookupGetter__"; "__lookupSetter__" ].

Definition inherited (k : string) : bool := includes objectPrototypeKeys k.

(** [obj[k] = v] on a plain object, for a number or a string [v]: the
    own properties are kept in a [JsMap]; the assignment to [__proto__]
    is ignored. *)
Definition assign {V : Type} (obj : list (string * V)) (k : string) (v : V)
    : list (string * V) :=
  if k =? "__proto__" then obj else JsMap.set obj k v.

(** The values a slot of [counts] takes: a number, or what arises from an
    inherited member (the member itself, or the text it turns into when 1
    is added): truthy and not a number. *)
Inductive CountValue : Type :=
  | numberValue (n : nat)
  | notANumber.

(** [counts[k] || 0]. *)
Definition countOf (counts : list (string * CountValue)) (k : string)
    : CountValue :=
  match JsMap.get counts k with
  | Some c => c
  | None => if inherited k then notANumber else numberValue 0
  end.

(** [c + 1]: addition on a number, concatenation otherwise. *)
Definition plusOne (c : CountValue) : CountValue :=
  match c with
  | numberValue n => numberValue (n + 1)
  | notANumber => notANumber
  end.

(** [c > 1]: false when [c] does not convert to a number. *)
Definition moreThanOne (c : CountValue) : bool :=
  match c with
  | numberValue n => (1 <? n)%nat
  | notANumber => false
  end.

(** Body of the loop of [connectionCount]. *)
Definition countStep (counts : list (string * CountValue)) (e : Edge)
    : list (string * CountValue) :=
  let counts1 :=
    assign counts (source e) (plusOne (countOf counts (source e))) in
  assign counts1 (target e) (plusOne (countOf counts1 (target e))).

Definition connectionCount (rawEdges : list Edge)
    : list (string * CountValue) :=
  fold_left countStep rawEdges [].

(** [focusedMember]: the clicked node, when it is a member node. *)
Definition focusedMember (selectedNodeId : option string)
    (rawNodes : list FamilyNode) : option string :=
  match selectedNodeId with
  | None => None
  | Some sel =>
      if negb (truthy selectedNodeId) then None
      else
        match find (fun n => id n =? sel) rawNodes with
        | Some node =>
            if NodeType_eqb (type node) member then Some sel else None
        | None => None
        end
  end.

(** [effectiveFocus = focusedMember ?? focusMemberId]. *)
Definition effectiveFocus (settings : GraphSettingsState)
    (selectedNodeId : option string) (rawNodes : list FamilyNode)
    : option string :=
  match focusedMember selectedNodeId rawNodes with
  | Some f => Some f
  | None => selectedId settings
  end.

(** Body of the loop of [highlightedIds]. *)
Definition highlightStep (focus : string) (ids : list string) (edge : Edge)
    : list string :=
  if source edge =? focus then add ids (target edge)
  else if target edge =? focus then add ids (source edge)
  else ids.

Definition highlightedIds (focus : option string) (rawEdges : list Edge)
    : option (list string) :=
  match focus with
  | None => None
  | Some f =>
      if negb (truthy focus) then None
      else Some (fold_left (highlightStep f) rawEdges (add [] f))
  end.

(** Body of the inner loop of [nodeOwnerMap]: the member id an edge
    yields for a node, if any. *)
Definition ownerFromEdge (nodeId : string) (edge : Edge) : option string :=
  if (target edge =? nodeId) && prefix "m-" (source edge)
  then Some (source edge)
  else if (source edge =? nodeId) && prefix "m-" (target edge)
  then Some (target edge)
  else None.

(** The inner loop: stops at the first edge that yields a non-empty
    member id and records it. *)
Fixpoint recordOwner (owners : list (string * string)) (nodeId : string)
    (rawEdges : list Edge) : list (string * string) :=
  match rawEdges with
  | [] => owners
  | edge :: rest =>
      let memberId := ownerFromEdge nodeId edge in
      if truthy memberId then
        match memberId with
        | Some m => assign owners nodeId m
        | None => owners
        end
      else recordOwner owners nodeId rest
  end.

Definition ownerStep (rawEdges : list Edge) (owners : list (string * string))
    (node : FamilyNode) : list (string * string) :=
  if NodeType_eqb (type node) member then owners
  else recordOwner owners (id node) rawEdges.

Definition nodeOwnerMap (raw : FamilyGraph) : list (string * string) :=
  fold_left (ownerStep (edges raw)) (nodes raw) [].

(** [nodeOwnerMap[k] === viewerId]: an inherited member is never equal to
    a string. *)
Definition ownerEntryIs (owners : list (string * string))
    (k viewer : string) : bool :=
  match JsMap.get owners k with
  | Some m => m =? viewer
  | None => false
  end.

Definition toLink (e : Edge) : GraphLink :=
  {| link_source := source e; link_target := target e;
     link_relation := relation e; link_label := edge_label e;
     link_weight := weight e |}.

Definition isSome {A : Type} (o : option A) : bool :=
  match o with
  | Some _ => true
  | None => false
  end.

(** [graphData]: the nodes and links handed to the renderer. *)
Definition graphData (settings : GraphSettingsState) (raw : FamilyGraph)
    (focus : option string) : GraphData :=
  let counts := connectionCount (edges raw) in
  let highlighted := highlightedIds focus (edges raw) in
  let nodes0 := filter (fun n => visibleTypes settings (type n)) (nodes raw) in
  let nodes1 :=
    if negb (showLeafNodes settings)
    then filter (fun n => moreThanOne (countOf counts (id n))) nodes0
    else nodes0 in
  let nodes2 :=
    if negb (showUnconnected settings) && truthy focus && isSome highlighted
    then filter (fun n => includes (orEmpty highlighted) (id n)) nodes1
    else nodes1 in
  let nodeIds := map id nodes2 in
  let shownLinks :=
    map toLink
      (filter (fun e => includes nodeIds (source e)
                        && includes nodeIds (target e)) (edges raw)) in
  {| shownNodes := nodes2; links := shownLinks |}.

Record HealthStatus : Type := mkHealthStatus {
  hasRisk : bool;
  hasAchievement : bool;
  riskCount : nat;
  achievementCount : nat
}.

(** The node at the other end of an edge of the member, if the edge
    touches the member. *)
Definition connectedIdOf (memberNode : FamilyNode) (edge : Edge)
    : option string :=
  if source edge =? id memberNode then Some (target edge)
  else if target edge =? id memberNode then Some (source edge)
  else None.

(** Body of the inner loop of [memberHealth]: the pair is
    [(riskCount, achievementCount)]. *)
Definition healthEdgeStep (rawNodes : list FamilyNode)
    (memberNode : FamilyNode) (counts : nat * nat) (edge : Edge)
    : nat * nat :=
  match connectedIdOf memberNode edge with
  | None => counts
  | Some connectedId =>
      if negb (truthy (Some connectedId)) then counts
      else
        match find (fun n => id n =? connectedId) rawNodes with
        | None => counts
        | Some connectedNode =>
            if NodeType_eqb (type connectedNode) member then counts
            else
              (fst counts
               + (if is_high (riskLevel connectedNode) then 1 else 0),
               snd counts
               + (if flagSet (isAchievement connectedNode) then 1 else 0))
        end
  end.

(** Body of the outer loop of [memberHealth]. *)
Definition memberHealthStep (raw : FamilyGraph)
    (health : list (string * HealthStatus)) (memberNode : FamilyNode)
    : list (string * HealthStatus) :=
  let counts :=
    fold_left (healthEdgeStep (nodes raw) memberNode) (edges raw) (0, 0) in
  JsMap.set health (id memberNode)
    {| hasRisk := (0 <? fst counts)%nat;
       hasAchievement := (0 <? snd counts)%nat;
       riskCount := fst counts;
       achievementCount := snd counts |}.

Definition memberHealth (raw : FamilyGraph)
    : list (string * HealthStatus) :=
  fold_left (memberHealthStep raw)
    (filter (fun n => NodeType_eqb (type n) member) (nodes raw)) [].

(** An edge has [k] at one end and [x] at the other. *)
Definition joins (k x : string) (e : Edge) : Prop :=
  (source e = k /\ target e = x) \/ (target e = k /\ source e = x).

(** The number of edge ends that are [k]. *)
Definition degree (rawEdges : list Edge) (k : string) : nat :=
  length (filter (fun e => source e =? k) rawEdges)
  + length (filter (fun e => target e =? k) rawEdges).

End GraphView.

(* ------------------------------------------------------------------ *)
(** ** Basic facts about the building blocks                           *)
(* ------------------------------------------------------------------ *)

Import VisibilityGate Shape Policy.

(** Closes a goal [~ In x l] for a concrete list [l] of values that all
    differ from [x] by some constructor. *)
Ltac absent :=
  let H := fresh "H" in
  vm_compute; intros H;
  repeat (destruct H as [H | H]; [discriminate H |]);
  exact H.

Lemma EdgeRelation_eqb_eq (a b : EdgeRelation) :
  EdgeRelation_eqb a b = true <-> a = b.
Proof.
  split.
  - destruct a, b; simpl; intros H; try reflexivity; discriminate H.
  - intros ->. destruct b; reflexivity.
Qed.

Lemma NodeType_eqb_eq (a b : NodeType) :
  NodeType_eqb a b = true <-> a = b.
Proof.
  split.
  - destruct a, b; simpl; intros H; try reflexivity; discriminate H.
  - intros ->. destruct b; reflexivity.
Qed.

Lemma includes_In (l : list string) (x : string) :
  includes l x = true <-> In x l.
Proof.
  unfold includes. rewrite existsb_exists. split.
  - intros [y [Hy E]]. apply String.eqb_eq in E. now subst.
  - intros H. exists x. split; [assumption | apply String.eqb_refl].
Qed.

Lemma hasRelation_spec (r : EdgeRelation) (a b : string) (es : list Edge) :
  hasRelation r a b es = true <->
  exists e, In e es /\ relation e = r /\ source e = a /\ target e = b.
Proof.
  unfold hasRelation. rewrite existsb_exists. split.
  - intros [e [He H]].
    apply andb_true_iff in H. destruct H as [H Ht].
    apply andb_true_iff in H. destruct H as [Hr Hs].
    exists e. repeat split; trivial.
    + now apply EdgeRelation_eqb_eq.
    + now apply String.eqb_eq.
    + now apply String.eqb_eq.
  - intros [e [He [Hr [Hs Ht]]]]. exists e. split; [assumption |].
    subst. rewrite !String.eqb_refl.
    now rewrite (proj2 (EdgeRelation_eqb_eq _ _) eq_refl).
Qed.

(** The owner is among the viewer's care targets exactly when a
    [caregiver_of] edge runs from the viewer to the owner. *)
Lemma careTargets_includes (v o : string) (es : list Edge) :
  includes (careTargets v es) o = isCaregiverOf v o es.
Proof.
  unfold careTargets, isCaregiverOf, hasRelation, includes.
  induction es as [| e es IH]; simpl; [reflexivity |].
  destruct (EdgeRelation_eqb (relation e) caregiver_of && (source e =? v));
    simpl; now rewrite IH.
Qed.

Lemma prefix_m_nonempty (s : string) :
  prefix "m-" s = true -> (s =? "") = false.
Proof.
  destruct s; simpl; [discriminate | reflexivity].
Qed.

(** What a resolved owner is: an id with the member prefix at the other
    end of some edge of the node. *)
Lemma findOwner_Some (x o : string) (es : list Edge) :
  findOwner x es = Some o ->
  prefix "m-" o = true /\
  exists e, In e es /\
    ((target e = x /\ source e = o) \/ (source e = x /\ target e = o)).
Proof.
  induction es as [| e es IH]; simpl; [discriminate |].
  destruct ((target e =? x) && prefix "m-" (source e)) eqn:E1.
  - intros H. injection H as <-.
    apply andb_true_iff in E1. destruct E1 as [Ht Hp].
    apply String.eqb_eq in Ht.
    split; [assumption |]. exists e. auto.
  - destruct ((source e =? x) && prefix "m-" (target e)) eqn:E2.
    + intros H. injection H as <-.
      apply andb_true_iff in E2. destruct E2 as [Hs Hp].
      apply String.eqb_eq in Hs.
      split; [assumption |]. exists e. auto.
    + intros H. destruct (IH H) as [Hp [e' [He' Hc]]].
      split; [assumption |]. exists e'. auto.
Qed.

(** A resolved owner is never the empty string, so [ownerId && ...] and
    [!ownerId] only test that the owner was found. *)
Lemma findOwner_truthy (x o : string) (es : list Edge) :
  findOwner x es = Some o -> truthy (Some o) = true.
Proof.
  intros H. apply findOwner_Some in H. destruct H as [Hp _].
  simpl. now rewrite (prefix_m_nonempty _ Hp).
Qed.

Lemma findOwner_nonempty (x o : string) (es : list Edge) :
  findOwner x es = Some o -> (o =? "") = false.
Proof.
  intros H. apply findOwner_Some in H. destruct H as [Hp _].
  now apply prefix_m_nonempty.
Qed.

Lemma isFinancialDoc_not_member (n : FamilyNode) :
  NodeType_eqb (type n) member = true -> isFinancialDoc n = false.
Proof.
  unfold type, isFinancialDoc. destruct (data n); simpl; try discriminate.
  reflexivity.
Qed.

Lemma nodes_gate (g : FamilyGraph) (v : string) (n : FamilyNode) :
  In n (nodes (applyVisibilityGate g v)) <->
  In n (nodes g)
  /\ nodeVisible (edges g) v (viewerRoleOf g v) n = true
  /\ notWithheld (viewerRoleOf g v) n = true.
Proof.
  unfold applyVisibilityGate. simpl. rewrite !filter_In. tauto.
Qed.

(* ------------------------------------------------------------------ *)
(** ** Properties of the gate                                          *)
(* ------------------------------------------------------------------ *)

(** The classifier of the post-filter picks exactly the nodes of type
    document whose docType is financial. *)
Lemma isFinancialDoc_spec (n : FamilyNode) :
  isFinancialDoc n = true <-> type n = document /\ docType n = Some financial.
Proof.
  unfold isFinancialDoc, type, docType.
  destruct (data n) as [| | | [] ? | |]; simpl; split;
    try discriminate; try tauto.
  all: intros [H1 H2]; discriminate.
Qed.

(** With unique node ids, the role the gate uses for a viewer is the
    role of the node that carries the viewer's id. *)
Remark viewer_role_with_unique_ids (g : FamilyGraph) (v : string)
    (m : FamilyNode) :
  NoDup (map id (nodes g)) -> In m (nodes g) -> id m = v ->
  viewerRoleOf g v = role m.
Proof.
  unfold viewerRoleOf. intros Huniq Hin Hid.
  induction (nodes g) as [| a ns IH]; [contradiction |].
  simpl in Huniq. apply NoDup_cons_iff in Huniq.
  destruct Huniq as [Hfresh Huniq]. simpl.
  destruct (id a =? v) eqn:Ea.
  - apply String.eqb_eq in Ea. destruct Hin as [-> | Hin]; [reflexivity |].
    exfalso. apply Hfresh. rewrite Ea, <- Hid. now apply in_map.
  - destruct Hin as [-> | Hin].
    + rewrite Hid, String.eqb_refl in Ea. discriminate Ea.
    + now apply IH.
Qed.

(** C3, as the code has it (financial document caregiver exclusion).
    When the gate's lookup of the viewer, the first node of the graph
    with the viewer's id, is a member node whose role is caregiver, no
    node of the gated graph has type document and docType financial. *)
Theorem caregiver_never_gets_financial_doc
    (g : FamilyGraph) (v : string) (n : FamilyNode) :
  viewerRoleOf g v = Some caregiver ->
  In n (nodes (applyVisibilityGate g v)) ->
  ~ (type n = document /\ docType n = Some financial).
Proof.
  intros Hrole Hin Hdoc. apply nodes_gate in Hin.
  destruct Hin as [_ [_ Hkeep]].
  apply isFinancialDoc_spec in Hdoc.
  unfold notWithheld in Hkeep. rewrite Hrole, Hdoc in Hkeep.
  discriminate Hkeep.
Qed.

Lemma caregiver_never_gets_financial_doc_witness :
  ~ (type Samples.trophy = document
     /\ docType Samples.trophy = Some financial).
Proof.
  apply (caregiver_never_gets_financial_doc Samples.household "m-nanny").
  - reflexivity.
  - vm_compute. tauto.
Defined.

(** C3 as stated fails when another node carries the caregiver's id and
    precedes her: Nanny is a member node with role caregiver and id
    [m-nanny], but the gate's lookup finds the folder with the same id,
    which has no role, and the gate for [m-nanny] discloses the invoice,
    a document with docType financial. *)
Lemma caregiver_behind_namesake_gets_financial_doc :
  In Samples.nanny (nodes Samples.duplicateIds)
  /\ id Samples.nanny = "m-nanny"
  /\ type Samples.nanny = member
  /\ role Samples.nanny = Some caregiver
  /\ type Samples.invoice = document
  /\ docType Samples.invoice = Some financial
  /\ In Samples.invoice
       (nodes (applyVisibilityGate Samples.duplicateIds "m-nanny")).
Proof.
  split; [simpl; tauto |].
  do 5 (split; [reflexivity |]).
  vm_compute. tauto.
Qed.

(** C8 (edge consistency).  Every edge of the gated graph has its source
    and its target among the ids of the gated graph's nodes. *)
Theorem gate_edges_consistent (g : FamilyGraph) (v : string) (e : Edge) :
  In e (edges (applyVisibilityGate g v)) ->
  In (source e) (map id (nodes (applyVisibilityGate g v)))
  /\ In (target e) (map id (nodes (applyVisibilityGate g v))).
Proof.
  unfold applyVisibilityGate. simpl. intros H.
  apply filter_In in H. destruct H as [_ H].
  apply andb_true_iff in H. destruct H as [Hs Ht].
  split; now apply includes_In.
Qed.

Lemma gate_edges_consistent_witness :
  In "m-nanny" (map id (nodes (applyVisibilityGate Samples.household "m-sis")))
  /\ In "m-dad" (map id (nodes (applyVisibilityGate Samples.household "m-sis"))).
Proof.
  apply (gate_edges_consistent Samples.household "m-sis"
           (Samples.edgeOf "e6" "m-nanny" "m-dad" caregiver_of)).
  vm_compute. tauto.
Defined.

(** The per-node decision does not depend on the caregiver-role clause. *)
Lemma nodeVisible_plain (es : list Edge) (v : string) (r : option Role)
    (n : FamilyNode) :
  PlainGate.nodeVisible es v r n = nodeVisible es v r n.
Proof.
  unfold PlainGate.nodeVisible, nodeVisible.
  destruct (flagSet (isAchievement n)); [reflexivity |].
  destruct (NodeType_eqb (type n) member); [reflexivity |].
  destruct (effectiveVisibility n); simpl; try reflexivity.
  destruct (findOwner (id n) es) as [o |]; simpl; [| reflexivity].
  destruct (o =? v); [reflexivity |].
  destruct (negb (negb (o =? ""))); [reflexivity |].
  destruct (isParentOf v o es); [reflexivity |].
  destruct (isGrandparentOf v o es); [reflexivity |].
  rewrite careTargets_includes.
  destruct (isCaregiverOf v o es); [reflexivity |].
  now rewrite andb_false_r.
Qed.

(** C10 (the caregiver-role clause of the health_only branch is
    redundant).  The gate with the clause removed returns the same graph
    as the gate as written, for every graph and every viewer. *)
Theorem caregiver_role_clause_redundant (g : FamilyGraph) (v : string) :
  PlainGate.applyVisibilityGate g v = applyVisibilityGate g v.
Proof.
  unfold PlainGate.applyVisibilityGate, applyVisibilityGate.
  rewrite (filter_ext _ _ (nodeVisible_plain (edges g) v (viewerRoleOf g v))).
  reflexivity.
Qed.

(** The first three rules of the per-node decision. *)
Lemma nodeVisible_achievement (es : list Edge) (v : string)
    (r : option Role) (n : FamilyNode) :
  isAchievement n = Some true -> nodeVisible es v r n = true.
Proof.
  intros H. unfold nodeVisible. now rewrite H.
Qed.

Lemma nodeVisible_member (es : list Edge) (v : string)
    (r : option Role) (n : FamilyNode) :
  type n = member -> nodeVisible es v r n = true.
Proof.
  intros H. unfold nodeVisible. rewrite H. simpl.
  now destruct (flagSet (isAchievement n)).
Qed.

Lemma nodeVisible_owner (es : list Edge) (v : string)
    (r : option Role) (n : FamilyNode) :
  findOwner (id n) es = Some v -> nodeVisible es v r n = true.
Proof.
  intros H. unfold nodeVisible. rewrite H. simpl. rewrite String.eqb_refl.
  destruct (flagSet (isAchievement n)); [reflexivity |].
  destruct (NodeType_eqb (type n) member); [reflexivity |].
  now destruct (Visibility_eqb (effectiveVisibility n) family).
Qed.

Lemma notWithheld_intro (r : option Role) (n : FamilyNode) :
  (r = Some caregiver -> isFinancialDoc n = false) ->
  notWithheld r n = true.
Proof.
  intros H. unfold notWithheld.
  destruct r as [[] |]; simpl; try reflexivity.
  now rewrite (H eq_refl).
Qed.

(** C1, as the code has it (achievement universality up to the caregiver
    post-filter).  A node of the graph with [isAchievement = true] is in
    the gated node list for every viewer, whatever its visibility, risk
    level and type, unless the viewer's role is caregiver and the node is
    a financial document. *)
Theorem achievement_disclosed_unless_withheld
    (g : FamilyGraph) (v : string) (n : FamilyNode) :
  In n (nodes g) ->
  isAchievement n = Some true ->
  (viewerRoleOf g v = Some caregiver -> isFinancialDoc n = false) ->
  In n (nodes (applyVisibilityGate g v)).
Proof.
  intros Hin Hach Hfin. apply nodes_gate. repeat split.
  - assumption.
  - now apply nodeVisible_achievement.
  - now apply notWithheld_intro.
Qed.

Lemma achievement_disclosed_unless_withheld_witness :
  In Samples.trophy (nodes (applyVisibilityGate Samples.household "m-nanny")).
Proof.
  apply achievement_disclosed_unless_withheld.
  - simpl. tauto.
  - reflexivity.
  - intros _. reflexivity.
Defined.

(** C1 as stated fails: Kid's bonus statement is an achievement of the
    graph, and the gate for the caregiver Nanny leaves it out because it is
    a financial document. *)
Lemma achievement_financial_doc_withheld_from_caregiver :
  In Samples.bonus (nodes Samples.caregiverHousehold)
  /\ isAchievement Samples.bonus = Some true
  /\ viewerRoleOf Samples.caregiverHousehold "m-nanny" = Some caregiver
  /\ ~ In Samples.bonus
        (nodes (applyVisibilityGate Samples.caregiverHousehold "m-nanny")).
Proof.
  split; [simpl; tauto |].
  split; [reflexivity |].
  split; [reflexivity |].
  absent.
Qed.




(** C6, as the code has it (owner self-visibility up to the caregiver
    post-filter).  A non-member node of the graph whose owner resolves to
    [o] is in the gated node list for viewer [o], unless [o]'s role is
    caregiver and the node is a financial document. *)
Theorem owner_sees_own_node
    (g : FamilyGraph) (o : string) (n : FamilyNode) :
  In n (nodes g) ->
  type n <> member ->
  findOwner (id n) (edges g) = Some o ->
  (viewerRoleOf g o = Some caregiver -> isFinancialDoc n = false) ->
  In n (nodes (applyVisibilityGate g o)).
Proof.
  intros Hin _ Hown Hfin. apply nodes_gate. repeat split.
  - assumption.
  - now apply nodeVisible_owner.
  - now apply notWithheld_intro.
Qed.

Lemma owner_sees_own_node_witness :
  In Samples.taxes (nodes (applyVisibilityGate Samples.household "m-dad")).
Proof.
  apply owner_sees_own_node.
  - simpl. tauto.
  - discriminate.
  - reflexivity.
  - intros H. vm_compute in H. discriminate H.
Defined.

(** C6 as stated fails: the payslips are a non-member node whose owner
    resolves to the caregiver Nanny, and the gate for Nanny leaves them
    out. *)
Lemma caregiver_owner_denied_own_financial_doc :
  In Samples.payslip (nodes Samples.caregiverHousehold)
  /\ type Samples.payslip <> member
  /\ findOwner (id Samples.payslip) (edges Samples.caregiverHousehold)
     = Some "m-nanny"
  /\ ~ In Samples.payslip
        (nodes (applyVisibilityGate Samples.caregiverHousehold "m-nanny")).
Proof.
  split; [simpl; tauto |].
  split; [discriminate |].
  split; [reflexivity |].
  absent.
Qed.

(** C4, as the code has it (private safety override).  Let [n] be a node
    of the graph with visibility private and risk level high whose owner
    resolves to [c], and let [p] have a [parent_of] edge to [c].  The gate
    for [p] discloses [n] unless [p]'s role is caregiver and [n] is a
    financial document; and the gate for a viewer [u] that is not the
    owner and has no [parent_of] edge to [c] hides [n] provided [n] is
    neither an achievement nor a member node. *)
Theorem private_safety_override
    (g : FamilyGraph) (n : FamilyNode) (c p u : string) :
  In n (nodes g) ->
  visibility n = Some private ->
  riskLevel n = Some high ->
  findOwner (id n) (edges g) = Some c ->
  isParentOf p c (edges g) = true ->
  ((viewerRoleOf g p = Some caregiver -> isFinancialDoc n = false) ->
   In n (nodes (applyVisibilityGate g p)))
  /\ (u <> c ->
      isParentOf u c (edges g) = false ->
      isAchievement n <> Some true ->
      type n <> member ->
      ~ In n (nodes (applyVisibilityGate g u))).
Proof.
  intros Hin Hvis Hrisk Hown Hpar. split.
  - intros Hfin. apply nodes_gate. repeat split.
    + assumption.
    + unfold nodeVisible, effectiveVisibility.
      rewrite Hvis, Hrisk, Hown. simpl.
      rewrite (findOwner_nonempty _ _ _ Hown), Hpar. simpl.
      destruct (flagSet (isAchievement n)); [reflexivity |].
      destruct (NodeType_eqb (type n) member); [reflexivity |].
      now destruct (c =? p).
    + now apply notWithheld_intro.
  - intros Hu Hnp Hach Hty Hgate.
    apply nodes_gate in Hgate. destruct Hgate as [_ [Hv _]].
    unfold nodeVisible, effectiveVisibility in Hv.
    rewrite Hvis, Hrisk, Hown in Hv. simpl in Hv. rewrite Hnp in Hv.
    rewrite andb_false_r in Hv.
    destruct (isAchievement n) as [[] |]; simpl in Hv;
      try (now elim Hach).
    all: destruct (NodeType_eqb (type n) member) eqn:Et;
      [ apply NodeType_eqb_eq in Et; contradiction |].
    all: destruct (c =? u) eqn:Ec; try discriminate Hv.
    all: apply String.eqb_eq in Ec; now elim Hu.
Qed.

Lemma private_safety_override_witness :
  In Samples.phone (nodes (applyVisibilityGate Samples.household "m-dad"))
  /\ ~ In Samples.phone (nodes (applyVisibilityGate Samples.household "m-sis")).
Proof.
  destruct (private_safety_override Samples.household Samples.phone
              "m-kid" "m-dad" "m-sis") as [Hshown Hhidden].
  - simpl. tauto.
  - reflexivity.
  - reflexivity.
  - reflexivity.
  - reflexivity.
  - split.
    + apply Hshown. intros H. vm_compute in H. discriminate H.
    + apply Hhidden.
      * discriminate.
      * reflexivity.
      * discriminate.
      * discriminate.
Defined.

(** C4 as stated fails in both halves.  Nanny has a [parent_of] edge to
    Kid, whose loan file is private and high risk, and the gate for Nanny
    hides it (her role is caregiver and the file is financial); Kid's
    stunt video and Kid's cousin are private and high risk, and the gate
    for the unrelated Sis discloses both (the video is an achievement, the
    cousin a member node). *)
Lemma safety_override_has_exceptions :
  (In Samples.loan (nodes Samples.caregiverHousehold)
   /\ visibility Samples.loan = Some private
   /\ riskLevel Samples.loan = Some high
   /\ findOwner (id Samples.loan) (edges Samples.caregiverHousehold)
      = Some "m-kid"
   /\ isParentOf "m-nanny" "m-kid" (edges Samples.caregiverHousehold) = true
   /\ ~ In Samples.loan
         (nodes (applyVisibilityGate Samples.caregiverHousehold "m-nanny")))
  /\
  (In Samples.stunt (nodes Samples.caregiverHousehold)
   /\ visibility Samples.stunt = Some private
   /\ riskLevel Samples.stunt = Some high
   /\ findOwner (id Samples.stunt) (edges Samples.caregiverHousehold)
      = Some "m-kid"
   /\ "m-sis" <> "m-kid"
   /\ isParentOf "m-sis" "m-kid" (edges Samples.caregiverHousehold) = false
   /\ In Samples.stunt
        (nodes (applyVisibilityGate Samples.caregiverHousehold "m-sis")))
  /\
  (In Samples.cousin (nodes Samples.caregiverHousehold)
   /\ visibility Samples.cousin = Some private
   /\ riskLevel Samples.cousin = Some high
   /\ findOwner (id Samples.cousin) (edges Samples.caregiverHousehold)
      = Some "m-kid"
   /\ In Samples.cousin
        (nodes (applyVisibilityGate Samples.caregiverHousehold "m-sis"))).
Proof.
  split.
  - split; [simpl; tauto |].
    do 4 (split; [reflexivity |]).
    absent.
  - split.
    + split; [simpl; tauto |].
      do 3 (split; [reflexivity |]).
      split; [discriminate |].
      split; [reflexivity |].
      vm_compute. tauto.
    + split; [simpl; tauto |].
      do 3 (split; [reflexivity |]).
      vm_compute. tauto.
Qed.

(** A viewer that no edge mentions is in no relation and owns nothing. *)
Lemma untouched_hasRelation (g : FamilyGraph) (v : string)
    (r : EdgeRelation) (o : string) :
  noEdgeTouches g v = true ->
  hasRelation r v o (edges g) = false /\ hasRelation r o v (edges g) = false.
Proof.
  intros H. unfold noEdgeTouches in H. rewrite forallb_forall in H.
  split.
  - destruct (hasRelation r v o (edges g)) eqn:E; [| reflexivity].
    apply hasRelation_spec in E. destruct E as [e [He [_ [Hs _]]]].
    specialize (H e He). rewrite Hs, String.eqb_refl in H. discriminate H.
  - destruct (hasRelation r o v (edges g)) eqn:E; [| reflexivity].
    apply hasRelation_spec in E. destruct E as [e [He [_ [_ Ht]]]].
    specialize (H e He). rewrite Ht, String.eqb_refl in H.
    rewrite andb_false_r in H. discriminate H.
Qed.

Lemma untouched_not_owner (g : FamilyGraph) (v x : string) :
  noEdgeTouches g v = true ->
  owner_is (findOwner x (edges g)) v = false.
Proof.
  intros H. destruct (findOwner x (edges g)) as [o |] eqn:E; [| reflexivity].
  simpl. destruct (o =? v) eqn:Eo; [| reflexivity].
  apply String.eqb_eq in Eo. subst o.
  apply findOwner_Some in E. destruct E as [_ [e [He Hc]]].
  unfold noEdgeTouches in H. rewrite forallb_forall in H.
  specialize (H e He).
  destruct Hc as [[_ Hs] | [_ Ht]].
  - rewrite Hs, String.eqb_refl in H. discriminate H.
  - rewrite Ht, String.eqb_refl in H. rewrite andb_false_r in H.
    discriminate H.
Qed.

Lemma unknown_viewer_role (g : FamilyGraph) (v : string) :
  noNodeHasId g v = true -> viewerRoleOf g v = None.
Proof.
  intros H. unfold viewerRoleOf.
  destruct (find (fun n => id n =? v) (nodes g)) as [n |] eqn:E;
    [| reflexivity].
  apply find_some in E. destruct E as [Hin Hid].
  unfold noNodeHasId in H. rewrite forallb_forall in H.
  specialize (H n Hin). rewrite Hid in H. discriminate H.
Qed.

Lemma nodeVisible_untouched (g : FamilyGraph) (v : string) (n : FamilyNode) :
  noEdgeTouches g v = true ->
  nodeVisible (edges g) v None n = openNode n || failsOpen n.
Proof.
  intros H. unfold nodeVisible, openNode, failsOpen.
  destruct (flagSet (isAchievement n)); [reflexivity |].
  destruct (NodeType_eqb (type n) member); [reflexivity |].
  simpl.
  destruct (Visibility_eqb (effectiveVisibility n) family) eqn:Ef;
    [reflexivity |].
  rewrite (untouched_not_owner g v (id n) H).
  unfold isParentOf, isGrandparentOf, isCaregiverOf, withOwner.
  destruct (findOwner (id n) (edges g)) as [o |].
  - destruct (untouched_hasRelation g v parent_of o H) as [-> ->].
    destruct (untouched_hasRelation g v grandparent_of o H) as [-> _].
    destruct (untouched_hasRelation g v caregiver_of o H) as [-> _].
    rewrite !andb_false_r. simpl.
    destruct (effectiveVisibility n); simpl; try reflexivity.
    + discriminate Ef.
    + now destruct (negb (negb (o =? ""))).
  - rewrite !andb_false_r.
    destruct (effectiveVisibility n); simpl; try reflexivity.
    discriminate Ef.
Qed.

(** C7, as the code has it (unknown viewer).  When [v] is the id of no
    node and no edge has [v] as an end, the gate returns a graph (it is a
    total function) whose node list is exactly the achievements, the
    member nodes, the nodes of effective visibility family and the nodes
    whose visibility is none of the four declared values, in graph order:
    the owner test and every role-gated branch evaluate false for such a
    viewer, and the remaining nodes fall through to the final
    [return true]. *)
Theorem unknown_viewer_sees_open_and_unrecognized_nodes
    (g : FamilyGraph) (v : string) :
  noNodeHasId g v = true ->
  noEdgeTouches g v = true ->
  nodes (applyVisibilityGate g v)
  = filter (fun n => openNode n || failsOpen n) (nodes g).
Proof.
  intros Hn He. unfold applyVisibilityGate. simpl.
  rewrite (unknown_viewer_role _ _ Hn).
  rewrite (filter_ext (notWithheld None) (fun _ => true)) by reflexivity.
  rewrite filter_true.
  apply filter_ext. intros n. now apply nodeVisible_untouched.
Qed.

Lemma unknown_viewer_sees_open_and_unrecognized_nodes_witness :
  nodes (applyVisibilityGate Samples.importedHousehold "m-stranger")
  = filter (fun n => openNode n || failsOpen n)
      (nodes Samples.importedHousehold).
Proof.
  apply unknown_viewer_sees_open_and_unrecognized_nodes; reflexivity.
Defined.

(** C7 as stated fails in two ways.  No node of the dangling graph has
    the id [m-ghost], yet an edge names [m-ghost] as the owner of the
    health record, and the gate for [m-ghost] discloses this health_only
    record, which is neither an achievement nor a member node nor
    family-visible.  And for [m-stranger], whom no node and no edge of
    the imported household names, the gate discloses the gadget, which is
    none of the three either: its visibility is not a declared value. *)
Lemma unknown_viewer_sees_more_than_open_nodes :
  (noNodeHasId Samples.dangling "m-ghost" = true
   /\ openNode Samples.record = false
   /\ In Samples.record
        (nodes (applyVisibilityGate Samples.dangling "m-ghost")))
  /\
  (noNodeHasId Samples.importedHousehold "m-stranger" = true
   /\ noEdgeTouches Samples.importedHousehold "m-stranger" = true
   /\ openNode Samples.gadget = false
   /\ In Samples.gadget
        (nodes (applyVisibilityGate Samples.importedHousehold "m-stranger"))).
Proof.
  split.
  - split; [reflexivity |].
    split; [reflexivity |].
    vm_compute. tauto.
  - do 3 (split; [reflexivity |]).
    vm_compute. tauto.
Qed.

(* ------------------------------------------------------------------ *)
(** ** Running the gate twice                                          *)
(* ------------------------------------------------------------------ *)

Section ListFacts.
Variable A : Type.

Lemma filter_all (f : A -> bool) (l : list A) :
  (forall x, In x l -> f x = true) -> filter f l = l.
Proof.
  intros H. apply forallb_filter_id. now apply forallb_forall.
Qed.

Lemma filter_idem (f : A -> bool) (l : list A) :
  filter f (filter f l) = filter f l.
Proof.
  apply filter_all. intros x Hx. apply filter_In in Hx. tauto.
Qed.

(** A search is not disturbed by a filter that keeps every hit. *)
Lemma find_filter_kept (p q : A -> bool) (l : list A) :
  (forall x, In x l -> p x = true -> q x = true) ->
  find p (filter q l) = find p l.
Proof.
  induction l as [| a l IH]; intros H; simpl; [reflexivity |].
  assert (IH' : find p (filter q l) = find p l).
  { apply IH. intros x Hx. apply H. now right. }
  destruct (q a) eqn:Eq; simpl.
  - now rewrite IH'.
  - destruct (p a) eqn:Ep; [| assumption].
    rewrite (H a (or_introl eq_refl) Ep) in Eq. discriminate Eq.
Qed.
End ListFacts.

(** How owner resolution and the relation queries behave on a filtered
    edge list. *)
Section FilteredEdges.
Variable keep : Edge -> bool.

Lemma findOwner_filter (x o : string) (es : list Edge) :
  findOwner x es = Some o ->
  (forall e, In e es ->
     (target e = x /\ source e = o) \/ (source e = x /\ target e = o) ->
     keep e = true) ->
  findOwner x (filter keep es) = Some o.
Proof.
  induction es as [| e es IH]; simpl; [discriminate |].
  intros Hown Hkeep.
  assert (IH' : findOwner x es = Some o ->
                findOwner x (filter keep es) = Some o).
  { intros H. apply IH; [assumption |].
    intros e' He'. apply Hkeep. now right. }
  destruct ((target e =? x) && prefix "m-" (source e)) eqn:E1.
  - injection Hown as Ho.
    apply andb_true_iff in E1. destruct E1 as [Ht Hp].
    rewrite (Hkeep e (or_introl eq_refl)).
    + simpl. rewrite Ht, Hp. simpl. now rewrite Ho.
    + left. apply String.eqb_eq in Ht. tauto.
  - destruct ((source e =? x) && prefix "m-" (target e)) eqn:E2.
    + injection Hown as Ho.
      rewrite (Hkeep e (or_introl eq_refl)).
      * simpl. rewrite E1, E2. now rewrite Ho.
      * right. apply andb_true_iff in E2. destruct E2 as [Hs _].
        apply String.eqb_eq in Hs. tauto.
    + destruct (keep e); simpl; [rewrite E1, E2 |]; now apply IH'.
Qed.

Lemma hasRelation_filter (r : EdgeRelation) (a b : string)
    (es : list Edge) :
  hasRelation r a b es = true ->
  (forall e, In e es -> source e = a -> target e = b -> keep e = true) ->
  hasRelation r a b (filter keep es) = true.
Proof.
  intros H Hkeep. apply hasRelation_spec in H.
  destruct H as [e [He [Hr [Hs Ht]]]].
  apply hasRelation_spec. exists e. repeat split; trivial.
  apply filter_In. split; [assumption |]. now apply Hkeep.
Qed.
End FilteredEdges.

(** The per-node decision stays positive when the edge list changes in a
    way that keeps the node's owner and the viewer's relations with that
    owner. *)
Lemma nodeVisible_preserved (es es' : list Edge) (v : string)
    (r : option Role) (n : FamilyNode) :
  (forall o, findOwner (id n) es = Some o ->
     findOwner (id n) es' = Some o
     /\ forall rel,
          (hasRelation rel v o es = true -> hasRelation rel v o es' = true)
          /\ (hasRelation rel o v es = true -> hasRelation rel o v es' = true)) ->
  nodeVisible es v r n = true ->
  nodeVisible es' v r n = true.
Proof.
  intros Hkept. unfold nodeVisible.
  destruct (flagSet (isAchievement n)); [reflexivity |].
  destruct (NodeType_eqb (type n) member); [reflexivity |].
  simpl.
  destruct (Visibility_eqb (effectiveVisibility n) family) eqn:Ef;
    [reflexivity |].
  destruct (findOwner (id n) es) as [o |].
  - destruct (Hkept o eq_refl) as [-> Hrel]. clear Hkept.
    unfold isParentOf, isGrandparentOf, isCaregiverOf, withOwner.
    rewrite !careTargets_includes. unfold isCaregiverOf.
    destruct (Hrel parent_of) as [Hp Hpr].
    destruct (Hrel grandparent_of) as [Hg _].
    destruct (Hrel caregiver_of) as [Hc _].
    simpl owner_is.
    destruct (o =? v); [reflexivity |].
    destruct (hasRelation parent_of v o es);
      [try rewrite (Hp eq_refl) | clear Hp].
    all: destruct (hasRelation grandparent_of v o es);
      [try rewrite (Hg eq_refl) | clear Hg].
    all: destruct (hasRelation caregiver_of v o es);
      [try rewrite (Hc eq_refl) | clear Hc].
    all: destruct (hasRelation parent_of o v es);
      [try rewrite (Hpr eq_refl) | clear Hpr].
    all: destruct (effectiveVisibility n), (is_caregiver r),
           (is_high (riskLevel n)), (truthy (Some o));
      simpl; rewrite ?andb_false_r, ?andb_true_r, ?orb_true_r;
      simpl; try reflexivity; try discriminate.
    all: repeat match goal with
         | |- context [hasRelation ?a ?b ?c ?d] =>
             destruct (hasRelation a b c d); simpl
         end; try reflexivity; try discriminate.
  - clear Hkept. simpl.
    destruct (effectiveVisibility n); try discriminate Ef;
      destruct (is_caregiver r), (is_high (riskLevel n)); simpl;
      intros H; try discriminate H;
      now destruct (owner_is (findOwner (id n) es') v).
Qed.

Lemma member_kept (g : FamilyGraph) (v : string) (m : FamilyNode) :
  In m (nodes g) -> type m = member ->
  In m (nodes (applyVisibilityGate g v)).
Proof.
  intros Hin Hty. apply nodes_gate. repeat split.
  - assumption.
  - now apply nodeVisible_member.
  - apply notWithheld_intro. intros _.
    apply isFinancialDoc_not_member. now rewrite Hty.
Qed.

Lemma memberId_visible (g : FamilyGraph) (v x : string) :
  isMemberId g x = true ->
  includes (map id (nodes (applyVisibilityGate g v))) x = true.
Proof.
  unfold isMemberId. rewrite existsb_exists.
  intros [m [Hin H]]. apply andb_true_iff in H. destruct H as [Hid Hty].
  apply String.eqb_eq in Hid. apply NodeType_eqb_eq in Hty.
  apply includes_In. apply in_map_iff. exists m. split; [assumption |].
  now apply member_kept.
Qed.

Lemma resolved_end (g : FamilyGraph) (v : string) (e : Edge) (x : string) :
  memberEndsResolve g v = true ->
  In e (edges g) ->
  source e = x \/ target e = x ->
  prefix "m-" x = true \/ x = v ->
  isMemberId g x = true.
Proof.
  unfold memberEndsResolve. rewrite forallb_forall.
  intros H He Hend Hx. specialize (H e He).
  apply andb_true_iff in H. destruct H as [Hs Ht].
  assert (Hsel : prefix "m-" x || (x =? v) = true).
  { destruct Hx as [-> | ->]; [reflexivity |].
    rewrite String.eqb_refl. apply orb_true_r. }
  destruct Hend as [<- | <-].
  - now rewrite Hsel in Hs.
  - now rewrite Hsel in Ht.
Qed.

(** The gate keeps the node the viewer resolves to, hence the viewer's
    role, when only member nodes carry the viewer's id. *)
Lemma viewerRole_gate (g : FamilyGraph) (v : string) :
  viewerOnlyMember g v = true ->
  viewerRoleOf (applyVisibilityGate g v) v = viewerRoleOf g v.
Proof.
  unfold viewerOnlyMember. rewrite forallb_forall. intros H.
  assert (Hmem : forall n, In n (nodes g) -> (id n =? v) = true ->
                           type n = member).
  { intros n Hn Hid. specialize (H n Hn). rewrite Hid in H.
    now apply NodeType_eqb_eq. }
  unfold viewerRoleOf at 1. unfold applyVisibilityGate. simpl.
  fold (viewerRoleOf g v).
  rewrite find_filter_kept.
  - rewrite find_filter_kept; [reflexivity |].
    intros n Hn Hid. apply nodeVisible_member. now apply Hmem.
  - intros n Hn Hid. apply filter_In in Hn. destruct Hn as [Hn _].
    apply notWithheld_intro. intros _.
    apply isFinancialDoc_not_member. now rewrite (Hmem n Hn Hid).
Qed.

Lemma edges_gate (g : FamilyGraph) (v : string) :
  edges (applyVisibilityGate g v)
  = filter (fun e =>
              includes (map id (nodes (applyVisibilityGate g v))) (source e)
              && includes (map id (nodes (applyVisibilityGate g v))) (target e))
      (edges g).
Proof. reflexivity. Qed.

(** A node the first pass disclosed passes the per-node decision again on
    the edges the first pass kept. *)
Lemma nodeVisible_second_pass (g : FamilyGraph) (v : string)
    (n : FamilyNode) :
  memberEndsResolve g v = true ->
  In n (nodes (applyVisibilityGate g v)) ->
  nodeVisible (edges (applyVisibilityGate g v)) v (viewerRoleOf g v) n = true.
Proof.
  intros Hends Hn.
  pose proof Hn as Hn'. apply nodes_gate in Hn'.
  destruct Hn' as [Hin [Hv _]].
  assert (Hidn : includes (map id (nodes (applyVisibilityGate g v))) (id n)
                 = true).
  { apply includes_In. now apply in_map. }
  rewrite edges_gate.
  revert Hv. apply nodeVisible_preserved. intros o Ho.
  destruct (findOwner_Some _ _ _ Ho) as [Hpre [e0 [He0 Hc0]]].
  assert (Hido : includes (map id (nodes (applyVisibilityGate g v))) o = true).
  { apply memberId_visible.
    apply (resolved_end g v e0 o Hends He0); [| now left].
    destruct Hc0 as [[_ H] | [_ H]]; auto. }
  assert (Hidv : forall e, In e (edges g) ->
            source e = v \/ target e = v ->
            includes (map id (nodes (applyVisibilityGate g v))) v = true).
  { intros e He Hend. apply memberId_visible.
    apply (resolved_end g v e v Hends He Hend). now right. }
  split.
  - apply findOwner_filter; [assumption |].
    intros e He [[Ht Hs] | [Hs Ht]]; rewrite Hs, Ht.
    + now rewrite Hido, Hidn.
    + now rewrite Hido, Hidn.
  - intros rel. split; intros H.
    + apply hasRelation_filter; [assumption |].
      intros e He Hs Ht. rewrite Hs, Ht, Hido.
      rewrite (Hidv e He (or_introl Hs)). reflexivity.
    + apply hasRelation_filter; [assumption |].
      intros e He Hs Ht. rewrite Hs, Ht, Hido.
      rewrite (Hidv e He (or_intror Ht)). reflexivity.
Qed.

(** C5, as the code has it (idempotence on graphs whose member and
    viewer ends resolve).  When every edge end that carries the member
    prefix or equals the viewer id is the id of a member node, and every
    node with the viewer's id is a member node, gating the gated graph
    again for the same viewer returns it unchanged. *)
Theorem gate_idempotent (g : FamilyGraph) (v : string) :
  memberEndsResolve g v = true ->
  viewerOnlyMember g v = true ->
  applyVisibilityGate (applyVisibilityGate g v) v = applyVisibilityGate g v.
Proof.
  intros Hends Hviewer.
  assert (Hnodes : nodes (applyVisibilityGate (applyVisibilityGate g v) v)
                   = nodes (applyVisibilityGate g v)).
  { unfold applyVisibilityGate at 1. simpl nodes at 1.
    rewrite (viewerRole_gate g v Hviewer).
    rewrite (filter_all _ (nodeVisible _ _ _)).
    - apply filter_all. intros n Hn. apply nodes_gate in Hn. tauto.
    - intros n Hn. now apply nodeVisible_second_pass. }
  assert (Hedges : edges (applyVisibilityGate (applyVisibilityGate g v) v)
                   = edges (applyVisibilityGate g v)).
  { rewrite (edges_gate (applyVisibilityGate g v) v), Hnodes.
    rewrite (edges_gate g v) at 2. rewrite (edges_gate g v) at 1.
    apply filter_idem. }
  destruct (applyVisibilityGate (applyVisibilityGate g v) v) as [ns es ev] eqn:E2.
  assert (Hev : ev = None).
  { apply (f_equal synapseEvents) in E2. simpl in E2. now subst ev. }
  simpl in Hnodes, Hedges. subst ns es ev.
  reflexivity.
Qed.

Lemma gate_idempotent_witness :
  applyVisibilityGate (applyVisibilityGate Samples.household "m-nanny")
    "m-nanny"
  = applyVisibilityGate Samples.household "m-nanny".
Proof.
  apply gate_idempotent; reflexivity.
Defined.

(** The condition on the viewer is needed even without dangling edges:
    the camera is recorded as parent of Kid, so the gate for viewer
    [d-cam] discloses Kid's risky diary but hides the camera itself; the
    [parent_of] edge goes with it and the second pass hides the diary. *)
Remark gate_twice_differs_for_hidden_viewer :
  applyVisibilityGate (applyVisibilityGate Samples.deviceAsParent "d-cam")
    "d-cam"
  <> applyVisibilityGate Samples.deviceAsParent "d-cam".
Proof.
  intros H.
  apply (f_equal (fun g => length (nodes g))) in H.
  vm_compute in H. discriminate H.
Qed.

(** C5 as stated fails on a graph with dangling edges: Dad is recorded as
    parent of [m-ghost], the owner of the health record and of the phone,
    but no node has that id.  The first pass discloses both to Dad and
    drops the three dangling edges; the second pass then finds no owner
    and hides both. *)
Lemma gate_not_idempotent_with_dangling_edges :
  applyVisibilityGate (applyVisibilityGate Samples.dangling "m-dad") "m-dad"
  <> applyVisibilityGate Samples.dangling "m-dad".
Proof.
  intros H.
  apply (f_equal (fun g => length (nodes g))) in H.
  vm_compute in H. discriminate H.
Qed.

(* ------------------------------------------------------------------ *)
(** ** Properties of the value filter                                  *)
(* ------------------------------------------------------------------ *)

Import Filters TagPass.

(** A loop that only appends is a [flat_map]. *)
Lemma fold_left_appending {A B : Type} (f : list B -> A -> list B) :
  (forall acc x, f acc x = acc ++ f [] x) ->
  forall xs acc, fold_left f xs acc = acc ++ flat_map (f []) xs.
Proof.
  intros Hf. induction xs as [| x xs IH]; intros acc; simpl.
  - now rewrite app_nil_r.
  - rewrite IH, (Hf acc x). now rewrite <- app_assoc.
Qed.

Lemma healthStep_appends (nodes : list FamilyNode)
    (acc : list DietaryRestriction) (e : Edge) :
  healthStep nodes acc e = acc ++ healthStep nodes [] e.
Proof.
  unfold healthStep.
  destruct (findNode nodes (memberEnd e)) as [mem |];
    [| now rewrite app_nil_r].
  destruct (findNode nodes (otherEnd e)) as [hlth |];
    [| now rewrite app_nil_r].
  destruct (dietaryKeywords_test (label hlth)
            || dietaryKeywords_test_field (condition hlth));
    [reflexivity | now rewrite app_nil_r].
Qed.

(** The second loop extends what the first loop left by source (b). *)
Lemma after_health_loop (nodes : list FamilyNode) (edges : list Edge) :
  fold_left (healthStep nodes) (healthEdges edges)
    (preferenceDerived nodes edges)
  = preferenceDerived nodes edges ++ healthDerived nodes edges.
Proof.
  unfold healthDerived.
  rewrite (fold_left_appending _ (healthStep_appends nodes)).
  now rewrite (fold_left_appending _ (healthStep_appends nodes) _ []).
Qed.

Lemma fold_left_map_pair (mem : FamilyNode) (tags : list string)
    (acc : list DietaryRestriction) :
  fold_left pairStep (map (pair mem) tags) acc
  = fold_left (tagStep mem) tags acc.
Proof.
  revert acc. induction tags as [| t tags IH]; intros acc; simpl;
    [reflexivity | apply IH].
Qed.

(** The nested loops of the third pass visit [tagPairs] in order. *)
Lemma member_loop_as_pairs (ms : list FamilyNode)
    (acc : list DietaryRestriction) :
  fold_left memberStep ms acc
  = fold_left pairStep
      (flat_map (fun mem => match healthTags mem with
                            | Some tags => map (pair mem) tags
                            | None => []
                            end) ms) acc.
Proof.
  revert acc. induction ms as [| m ms IH]; intros acc; simpl;
    [reflexivity |].
  rewrite fold_left_app, IH. f_equal.
  unfold memberStep. destruct (healthTags m) as [tags |]; simpl;
    [now rewrite fold_left_map_pair | reflexivity].
Qed.

Lemma value_filter_as_tagPass (nodes : list FamilyNode) (edges : list Edge) :
  value_filter nodes edges = tagPass nodes edges (tagPairs nodes).
Proof.
  unfold value_filter, tagPass, tagPairs.
  fold (preferenceDerived nodes edges).
  now rewrite after_health_loop, member_loop_as_pairs.
Qed.

Lemma alreadyHas_spec (rs : list DietaryRestriction) (mem : FamilyNode)
    (t : string) :
  alreadyHas rs mem t = true <-> hasKey rs (id mem) t.
Proof.
  unfold alreadyHas, hasKey. rewrite existsb_exists.
  split; intros [r [Hin H]]; exists r; (split; [assumption |]).
  - apply andb_true_iff in H. destruct H as [Hi Hl].
    apply String.eqb_eq in Hi. apply String.eqb_eq in Hl. tauto.
  - destruct H as [-> ->]. now rewrite !String.eqb_refl.
Qed.

Lemma hasKey_app (rs rs' : list DietaryRestriction) (i t : string) :
  hasKey (rs ++ rs') i t <-> hasKey rs i t \/ hasKey rs' i t.
Proof.
  unfold hasKey. split.
  - intros [r [Hin H]]. apply in_app_or in Hin.
    destruct Hin; [left | right]; exists r; tauto.
  - intros [[r [Hin H]] | [r [Hin H]]]; exists r;
      (split; [apply in_or_app; tauto | assumption]).
Qed.

(** The keys present after one step: those present before, and the key
    of the examined tag. *)
Lemma hasKey_tagStep (mem : FamilyNode) (rs : list DietaryRestriction)
    (tag i t : string) :
  hasKey (tagStep mem rs tag) i t <->
  hasKey rs i t \/ (id mem = i /\ tag = t).
Proof.
  unfold tagStep. destruct (alreadyHas rs mem tag) eqn:E; simpl.
  - split; [tauto |]. intros [H | [<- <-]]; [assumption |].
    now apply alreadyHas_spec.
  - rewrite hasKey_app. split.
    + intros [H | [r [[<- | []] [Hi Hl]]]]; [tauto |]. simpl in Hi, Hl. tauto.
    + intros [H | [<- <-]]; [tauto |]. right.
      exists (tagRestriction mem tag). simpl. tauto.
Qed.

Lemma hasKey_fold (visited : list (FamilyNode * string))
    (rs : list DietaryRestriction) (i t : string) :
  hasKey (fold_left pairStep visited rs) i t <->
  hasKey rs i t \/ tagSeen visited i t.
Proof.
  revert rs. induction visited as [| [m' t'] visited IH]; intros rs; simpl.
  - split; [tauto |]. intros [H | [m [[] _]]]. assumption.
  - rewrite IH. unfold pairStep. simpl. rewrite hasKey_tagStep.
    unfold tagSeen. split.
    + intros [[H | [<- <-]] | [m [Hin Hid]]].
      * tauto.
      * right. exists m'. simpl. tauto.
      * right. exists m. simpl. tauto.
    + intros [H | [m [[Heq | Hin] Hid]]].
      * tauto.
      * injection Heq as -> ->. tauto.
      * right. exists m. tauto.
Qed.

Lemma app_one_neq (A : Type) (l : list A) (x : A) : l ++ [x] <> l.
Proof.
  intros H. apply (f_equal (@length A)) in H.
  rewrite length_app in H. simpl in H. lia.
Qed.

(** C9, as the code has it (deduplication of health tags by member and
    label).  Let the third pass reach tag [t] of member [mem] after the
    pairs [visited].  The tag is pushed as a restriction if and only if no
    restriction derived from a preference, no restriction derived from a
    health node and no tag examined earlier has the same member id and
    label; otherwise the list is left as it is.  The result of the filter
    is what the remaining pairs make of that list. *)
Theorem health_tag_pushed_iff_key_is_new
    (nodes : list FamilyNode) (edges : list Edge)
    (visited rest : list (FamilyNode * string))
    (mem : FamilyNode) (t : string) :
  tagPairs nodes = visited ++ (mem, t) :: rest ->
  (tagPass nodes edges (visited ++ [(mem, t)])
   = tagPass nodes edges visited ++ [tagRestriction mem t]
   <->
   ~ hasKey (preferenceDerived nodes edges) (id mem) t
   /\ ~ hasKey (healthDerived nodes edges) (id mem) t
   /\ ~ tagSeen visited (id mem) t)
  /\ (tagPass nodes edges (visited ++ [(mem, t)])
      = tagPass nodes edges visited ++ [tagRestriction mem t]
      \/ tagPass nodes edges (visited ++ [(mem, t)])
         = tagPass nodes edges visited)
  /\ value_filter nodes edges
     = fold_left pairStep rest (tagPass nodes edges (visited ++ [(mem, t)])).
Proof.
  intros Hsplit.
  assert (Hstep : tagPass nodes edges (visited ++ [(mem, t)])
                  = tagStep mem (tagPass nodes edges visited) t).
  { unfold tagPass. now rewrite fold_left_app. }
  assert (Hkey : alreadyHas (tagPass nodes edges visited) mem t = true <->
                 hasKey (preferenceDerived nodes edges) (id mem) t
                 \/ hasKey (healthDerived nodes edges) (id mem) t
                 \/ tagSeen visited (id mem) t).
  { rewrite alreadyHas_spec. unfold tagPass.
    rewrite hasKey_fold, hasKey_app. tauto. }
  rewrite Hstep. unfold tagStep.
  destruct (alreadyHas (tagPass nodes edges visited) mem t) eqn:E; simpl.
  - split; [| split].
    + split.
      * intros H. symmetry in H. now apply app_one_neq in H.
      * intros [H1 [H2 H3]]. destruct (proj1 Hkey eq_refl) as [H | [H | H]];
          contradiction.
    + now right.
    + rewrite value_filter_as_tagPass, Hsplit. unfold tagPass.
      rewrite fold_left_app. simpl. unfold pairStep at 2. simpl.
      unfold tagStep. fold (tagPass nodes edges visited). now rewrite E.
  - split; [| split].
    + split; [| reflexivity].
      intros _. repeat split; intros H;
        (assert (Hf : false = true) by (apply Hkey; tauto));
        discriminate Hf.
    + now left.
    + rewrite value_filter_as_tagPass, Hsplit. unfold tagPass.
      rewrite fold_left_app. simpl. unfold pairStep at 2. simpl.
      unfold tagStep. fold (tagPass nodes edges visited). now rewrite E.
Qed.

Lemma health_tag_pushed_iff_key_is_new_witness :
  tagPass Samples.dinerNodes Samples.dinerEdges
    ([(Samples.grandma, "No Meat"); (Samples.grandma, "Low-Salt Diet")]
     ++ [(Samples.grandma, "Naps")])
  = tagPass Samples.dinerNodes Samples.dinerEdges
      [(Samples.grandma, "No Meat"); (Samples.grandma, "Low-Salt Diet")]
    ++ [tagRestriction Samples.grandma "Naps"]
  <->
  ~ hasKey (preferenceDerived Samples.dinerNodes Samples.dinerEdges)
      (id Samples.grandma) "Naps"
  /\ ~ hasKey (healthDerived Samples.dinerNodes Samples.dinerEdges)
        (id Samples.grandma) "Naps"
  /\ ~ tagSeen [(Samples.grandma, "No Meat"); (Samples.grandma, "Low-Salt Diet")]
        (id Samples.grandma) "Naps".
Proof.
  apply (health_tag_pushed_iff_key_is_new
           Samples.dinerNodes Samples.dinerEdges
           [(Samples.grandma, "No Meat"); (Samples.grandma, "Low-Salt Diet")]
           [] Samples.grandma "Naps").
  reflexivity.
Defined.

(** C9 as stated fails: Grandma's tag "No Meat" is not captured by source
    (b) (no health-node restriction of hers has that label), yet the
    filter does not push it, because her food preference "No Meat" already
    holds that member id and label. *)
Lemma health_tag_dropped_for_equal_preference :
  In Samples.grandma (members Samples.dinerNodes)
  /\ healthTags Samples.grandma = Some ["No Meat"; "Low-Salt Diet"; "Naps"]
  /\ alreadyHas (healthDerived Samples.dinerNodes Samples.dinerEdges)
       Samples.grandma "No Meat" = false
  /\ alreadyHas (preferenceDerived Samples.dinerNodes Samples.dinerEdges)
       Samples.grandma "No Meat" = true
  /\ ~ In (tagRestriction Samples.grandma "No Meat")
        (value_filter Samples.dinerNodes Samples.dinerEdges).
Proof.
  split; [simpl; tauto |].
  do 3 (split; [reflexivity |]).
  absent.
Qed.

(* ------------------------------------------------------------------ *)
(** ** Owner resolution                                                *)
(* ------------------------------------------------------------------ *)

(** [findOwner] returns [null] exactly when no edge links the node to an
    id with the member prefix; an owner it returns carries the prefix and
    sits at the other end of an edge of the node. *)
Theorem findOwner_null_iff_unlinked (x : string) (es : list Edge) :
  (findOwner x es = None <-> forall e, In e es -> ~ linksToMember x e)
  /\ (forall o, findOwner x es = Some o ->
        prefix "m-" o = true
        /\ exists e, In e es /\
             ((target e = x /\ source e = o) \/ (source e = x /\ target e = o))).
Proof.
  split; [| intros o; apply findOwner_Some].
  unfold linksToMember.
  induction es as [| e es IH]; simpl.
  - split; [intros _ e [] | reflexivity].
  - destruct ((target e =? x) && prefix "m-" (source e)) eqn:E1.
    + split; [discriminate |]. intros H. exfalso.
      apply andb_true_iff in E1. destruct E1 as [Ht Hp].
      apply String.eqb_eq in Ht.
      apply (H e (or_introl eq_refl)). left. tauto.
    + destruct ((source e =? x) && prefix "m-" (target e)) eqn:E2.
      * split; [discriminate |]. intros H. exfalso.
        apply andb_true_iff in E2. destruct E2 as [Hs Hp].
        apply String.eqb_eq in Hs.
        apply (H e (or_introl eq_refl)). right. tauto.
      * rewrite IH. split.
        -- intros H e' [<- | He'].
           ++ intros [[Ht Hp] | [Hs Hp]].
              ** apply String.eqb_eq in Ht. rewrite Ht, Hp in E1.
                 discriminate E1.
              ** apply String.eqb_eq in Hs. rewrite Hs, Hp in E2.
                 discriminate E2.
           ++ now apply H.
        -- intros H e' He'. apply H. now right.
Qed.

(** Owner resolution over a concatenated edge list: the first list
    decides whenever it resolves an owner, so edges appended to a graph
    never change the owner of a node that already had one. *)
Theorem findOwner_app (x : string) (es1 es2 : list Edge) :
  findOwner x (es1 ++ es2)
  = match findOwner x es1 with
    | Some o => Some o
    | None => findOwner x es2
    end.
Proof.
  induction es1 as [| e es1 IH]; simpl; [reflexivity |].
  destruct ((target e =? x) && prefix "m-" (source e)); [reflexivity |].
  destruct ((source e =? x) && prefix "m-" (target e)); [reflexivity |].
  apply IH.
Qed.

(* ------------------------------------------------------------------ *)
(** ** Further properties of the gate                                  *)
(* ------------------------------------------------------------------ *)

(** Member universality: every member node of the graph is in the gated
    node list, for every viewer id. *)
Theorem member_nodes_always_disclosed
    (g : FamilyGraph) (v : string) (m : FamilyNode) :
  In m (nodes g) -> type m = member ->
  In m (nodes (applyVisibilityGate g v)).
Proof.
  intros Hin Hty. now apply member_kept.
Qed.

Lemma member_nodes_always_disclosed_witness :
  In Samples.nanny (nodes (applyVisibilityGate Samples.household "m-kid")).
Proof.
  apply member_nodes_always_disclosed.
  - simpl. tauto.
  - reflexivity.
Defined.

(** Filtering a node list keeps its ids unique. *)
Lemma filter_keeps_unique_ids (keep : FamilyNode -> bool)
    (ns : list FamilyNode) (Huniq : NoDup (map id ns)) :
  NoDup (map id (filter keep ns)).
Proof.
  induction ns as [| n ns IH]; [exact Huniq |].
  simpl in Huniq. apply NoDup_cons_iff in Huniq.
  destruct Huniq as [Hfresh Huniq]. specialize (IH Huniq).
  simpl. destruct (keep n); [| exact IH].
  simpl. apply NoDup_cons; [| exact IH].
  intros Hdup. apply Hfresh. apply in_map_iff in Hdup.
  destruct Hdup as [n' [Hid Hkept]]. apply filter_In in Hkept.
  rewrite <- Hid. apply in_map. tauto.
Qed.

(** The gate returns a sub-graph: its nodes are nodes of the input, its
    edges are edges of the input, and node ids that were unique in the
    input are unique in the output. *)
Theorem gate_returns_subgraph (g : FamilyGraph) (v : string) :
  incl (nodes (applyVisibilityGate g v)) (nodes g)
  /\ incl (edges (applyVisibilityGate g v)) (edges g)
  /\ (NoDup (map id (nodes g)) ->
      NoDup (map id (nodes (applyVisibilityGate g v)))).
Proof.
  split; [| split].
  - intros n Hn. apply nodes_gate in Hn. tauto.
  - intros e He. rewrite edges_gate in He. apply filter_In in He. tauto.
  - intros H. unfold applyVisibilityGate. simpl.
    now do 2 apply filter_keeps_unique_ids.
Qed.

Lemma gate_returns_subgraph_witness :
  NoDup (map id (nodes (applyVisibilityGate Samples.household "m-sis"))).
Proof.
  apply (proj2 (proj2 (gate_returns_subgraph Samples.household "m-sis"))).
  vm_compute.
  repeat (constructor;
          [ let H := fresh "H" in
            intros H;
            repeat (destruct H as [H | H]; [discriminate H |]); exact H |]).
  constructor.
Defined.

(** The edges of the gated graph are exactly the edges of the input whose
    source and target are both ids of disclosed nodes: no such edge is
    dropped. *)
Theorem gate_keeps_edges_between_disclosed_nodes
    (g : FamilyGraph) (v : string) (e : Edge) :
  In e (edges (applyVisibilityGate g v)) <->
  In e (edges g)
  /\ In (source e) (map id (nodes (applyVisibilityGate g v)))
  /\ In (target e) (map id (nodes (applyVisibilityGate g v))).
Proof.
  rewrite edges_gate, filter_In, andb_true_iff, !includes_In. tauto.
Qed.

(** A node whose effective visibility is family is disclosed to every
    viewer, unless the viewer's role is caregiver and the node is a
    financial document. *)
Theorem family_visible_disclosed
    (g : FamilyGraph) (v : string) (n : FamilyNode) :
  In n (nodes g) ->
  effectiveVisibility n = family ->
  (viewerRoleOf g v = Some caregiver -> isFinancialDoc n = false) ->
  In n (nodes (applyVisibilityGate g v)).
Proof.
  intros Hin Hvis Hfin. apply nodes_gate. repeat split.
  - assumption.
  - unfold nodeVisible. rewrite Hvis. simpl.
    destruct (flagSet (isAchievement n)); [reflexivity |].
    now destruct (NodeType_eqb (type n) member).
  - now apply notWithheld_intro.
Qed.

Lemma family_visible_disclosed_witness :
  In (Samples.preferenceOf "p-hike" "Hiking" activity loves)
     (nodes (applyVisibilityGate
               (mkGraph [Samples.kid;
                         Samples.preferenceOf "p-hike" "Hiking" activity loves]
                        [] None) "m-kid")).
Proof.
  apply family_visible_disclosed.
  - simpl. tauto.
  - reflexivity.
  - intros H. vm_compute in H. discriminate H.
Defined.

(** The per-node decision on a restricted node, as one expression in the
    resolved owner. *)
Lemma nodeVisible_restricted (es : list Edge) (v : string)
    (r : option Role) (n : FamilyNode) :
  restricted n ->
  nodeVisible es v r n
  = match findOwner (id n) es with
    | None => failsOpen n
    | Some o =>
        (o =? v)
        || match effectiveVisibility n with
           | health_only =>
               isParentOf v o es || isGrandparentOf v o es
               || isCaregiverOf v o es
           | guarded =>
               negb (is_caregiver r)
               && (isParentOf v o es || isGrandparentOf v o es
                   || (is_high (riskLevel n) && isParentOf o v es))
           | private => is_high (riskLevel n) && isParentOf v o es
           | family | unrecognized_visibility => true
           end
    end.
Proof.
  intros [Hach [Hty Hvis]]. unfold nodeVisible.
  assert (Ea : flagSet (isAchievement n) = false).
  { destruct (isAchievement n) as [[] |]; simpl; try reflexivity.
    now elim Hach. }
  assert (Et : NodeType_eqb (type n) member = false).
  { destruct (NodeType_eqb (type n) member) eqn:E; [| reflexivity].
    apply NodeType_eqb_eq in E. contradiction. }
  rewrite Ea, Et. unfold failsOpen. simpl.
  destruct (findOwner (id n) es) as [o |] eqn:Eo.
  - rewrite careTargets_includes. unfold withOwner. simpl.
    rewrite (findOwner_nonempty _ _ _ Eo). simpl.
    destruct (effectiveVisibility n); simpl;
      [| now elim Hvis | | |];
      destruct (o =? v); simpl; try reflexivity.
    + now destruct (is_high (riskLevel n)), (isParentOf v o es).
    + destruct (is_caregiver r); simpl; [reflexivity |].
      destruct (isParentOf v o es); simpl; [reflexivity |].
      destruct (isGrandparentOf v o es); simpl; [reflexivity |].
      now destruct (is_high (riskLevel n) && isParentOf o v es).
    + destruct (isParentOf v o es); simpl; [reflexivity |].
      destruct (isGrandparentOf v o es); simpl; [reflexivity |].
      destruct (isCaregiverOf v o es); simpl; [reflexivity |].
      now rewrite andb_false_r.
  - simpl. destruct (effectiveVisibility n); simpl;
      try reflexivity; try (now elim Hvis).
    + now rewrite andb_false_r.
    + now destruct (is_caregiver r), (is_high (riskLevel n)).
Qed.

(** A node of a declared restricted visibility (private, guarded or
    health_only) that is neither an achievement nor a member node and has
    no resolvable owner is hidden from every viewer: no relation and no
    risk level discloses it. *)
Theorem unowned_restricted_node_hidden
    (g : FamilyGraph) (v : string) (n : FamilyNode) :
  restricted n ->
  effectiveVisibility n <> unrecognized_visibility ->
  findOwner (id n) (edges g) = None ->
  ~ In n (nodes (applyVisibilityGate g v)).
Proof.
  intros Hres Hdecl Hown Hin. apply nodes_gate in Hin.
  destruct Hin as [_ [Hv _]].
  rewrite (nodeVisible_restricted _ _ _ _ Hres), Hown in Hv.
  unfold failsOpen in Hv.
  destruct (effectiveVisibility n); simpl in Hv; try discriminate Hv.
  now elim Hdecl.
Qed.

Lemma unowned_restricted_node_hidden_witness :
  ~ In Samples.phone
      (nodes (applyVisibilityGate
                (mkGraph [Samples.dad; Samples.phone]
                   [Samples.edgeOf "e1" "d-phone" "d-phone" related_to] None)
                "m-dad")).
Proof.
  apply unowned_restricted_node_hidden.
  - repeat split; discriminate.
  - discriminate.
  - reflexivity.
Defined.

(** The gate fails open on visibility values it does not know: a node
    whose visibility is none of the four declared values is disclosed to
    every viewer, with or without an owner, unless the viewer's role is
    caregiver and the node is a financial document. *)
Theorem unrecognized_visibility_fails_open
    (g : FamilyGraph) (v : string) (n : FamilyNode) :
  In n (nodes g) ->
  visibility n = Some unrecognized_visibility ->
  (viewerRoleOf g v = Some caregiver -> isFinancialDoc n = false) ->
  In n (nodes (applyVisibilityGate g v)).
Proof.
  intros Hin Hvis Hfin. apply nodes_gate. repeat split.
  - assumption.
  - unfold nodeVisible, effectiveVisibility. rewrite Hvis. simpl.
    destruct (flagSet (isAchievement n)); [reflexivity |].
    destruct (NodeType_eqb (type n) member); [reflexivity |].
    now destruct (owner_is (findOwner (id n) (edges g)) v).
  - now apply notWithheld_intro.
Qed.

Lemma unrecognized_visibility_fails_open_witness :
  In Samples.gadget
     (nodes (applyVisibilityGate Samples.importedHousehold "m-dad")).
Proof.
  apply unrecognized_visibility_fails_open.
  - simpl. tauto.
  - reflexivity.
  - intros H. vm_compute in H. discriminate H.
Defined.

(** Disclosure of a restricted health_only node: it is in the gated node
    list exactly when its owner resolves and the viewer is that owner or
    has a parent_of, grandparent_of or caregiver_of edge to the owner
    (and the caregiver post-filter does not withhold it). *)
Theorem health_only_disclosed_iff
    (g : FamilyGraph) (v : string) (n : FamilyNode) :
  In n (nodes g) ->
  restricted n ->
  visibility n = Some health_only ->
  (viewerRoleOf g v = Some caregiver -> isFinancialDoc n = false) ->
  (In n (nodes (applyVisibilityGate g v)) <->
   exists o, findOwner (id n) (edges g) = Some o
     /\ (o = v
         \/ isParentOf v o (edges g) = true
         \/ isGrandparentOf v o (edges g) = true
         \/ isCaregiverOf v o (edges g) = true)).
Proof.
  intros Hin Hres Hvis Hfin. rewrite nodes_gate.
  rewrite (nodeVisible_restricted _ _ _ _ Hres).
  unfold failsOpen, effectiveVisibility. rewrite Hvis. simpl Visibility_eqb.
  pose proof (notWithheld_intro _ _ Hfin) as Hkeep.
  destruct (findOwner (id n) (edges g)) as [o |].
  - rewrite !orb_true_iff, String.eqb_eq. split.
    + intros [_ [H _]]. exists o. tauto.
    + intros [o' [Ho H]]. injection Ho as <-. tauto.
  - split; [intros [_ [H _]]; discriminate H |].
    intros [o [Ho _]]. discriminate Ho.
Qed.

Lemma health_only_disclosed_iff_witness :
  In Samples.diabetes (nodes (applyVisibilityGate Samples.household "m-nanny"))
  <->
  exists o,
    findOwner (id Samples.diabetes) (edges Samples.household) = Some o
    /\ (o = "m-nanny"
        \/ isParentOf "m-nanny" o (edges Samples.household) = true
        \/ isGrandparentOf "m-nanny" o (edges Samples.household) = true
        \/ isCaregiverOf "m-nanny" o (edges Samples.household) = true).
Proof.
  apply health_only_disclosed_iff.
  - simpl. tauto.
  - repeat split; discriminate.
  - reflexivity.
  - intros _. reflexivity.
Defined.

(** Disclosure of a restricted guarded node to a viewer whose role is not
    caregiver: exactly when its owner resolves and the viewer is that
    owner, or has a parent_of or grandparent_of edge to the owner, or the
    node is high risk and the owner has a parent_of edge to the viewer. *)
Theorem guarded_disclosed_iff
    (g : FamilyGraph) (v : string) (n : FamilyNode) :
  In n (nodes g) ->
  restricted n ->
  visibility n = Some guarded ->
  viewerRoleOf g v <> Some caregiver ->
  (In n (nodes (applyVisibilityGate g v)) <->
   exists o, findOwner (id n) (edges g) = Some o
     /\ (o = v
         \/ isParentOf v o (edges g) = true
         \/ isGrandparentOf v o (edges g) = true
         \/ (riskLevel n = Some high /\ isParentOf o v (edges g) = true))).
Proof.
  intros Hin Hres Hvis Hrole. rewrite nodes_gate.
  rewrite (nodeVisible_restricted _ _ _ _ Hres).
  unfold failsOpen, effectiveVisibility. rewrite Hvis. simpl Visibility_eqb.
  assert (Hkeep : notWithheld (viewerRoleOf g v) n = true).
  { apply notWithheld_intro. intros H. contradiction. }
  assert (Hcg : is_caregiver (viewerRoleOf g v) = false).
  { destruct (viewerRoleOf g v) as [[] |]; try reflexivity.
    now elim Hrole. }
  assert (Hhigh : is_high (riskLevel n) = true <-> riskLevel n = Some high).
  { destruct (riskLevel n) as [[] |]; simpl; split;
      try reflexivity; discriminate. }
  rewrite Hcg. simpl.
  destruct (findOwner (id n) (edges g)) as [o |].
  - rewrite !orb_true_iff, andb_true_iff, String.eqb_eq, Hhigh. split.
    + intros [_ [H _]]. exists o. tauto.
    + intros [o' [Ho H]]. injection Ho as <-. tauto.
  - split; [intros [_ [H _]]; discriminate H |].
    intros [o [Ho _]]. discriminate Ho.
Qed.

Lemma guarded_disclosed_iff_witness :
  In Samples.taxes (nodes (applyVisibilityGate Samples.household "m-kid"))
  <->
  exists o,
    findOwner (id Samples.taxes) (edges Samples.household) = Some o
    /\ (o = "m-kid"
        \/ isParentOf "m-kid" o (edges Samples.household) = true
        \/ isGrandparentOf "m-kid" o (edges Samples.household) = true
        \/ (riskLevel Samples.taxes = Some high
            /\ isParentOf o "m-kid" (edges Samples.household) = true)).
Proof.
  apply guarded_disclosed_iff.
  - simpl. tauto.
  - repeat split; discriminate.
  - reflexivity.
  - vm_compute. discriminate.
Defined.

(** Disclosure of a restricted private node: exactly when its owner
    resolves and the viewer is that owner, or the node is high risk and
    the viewer has a parent_of edge to the owner (and the caregiver
    post-filter does not withhold it).  Grandparents and caregivers of
    the owner get no access, whatever the risk level. *)
Theorem private_disclosed_iff
    (g : FamilyGraph) (v : string) (n : FamilyNode) :
  In n (nodes g) ->
  restricted n ->
  visibility n = Some private ->
  (viewerRoleOf g v = Some caregiver -> isFinancialDoc n = false) ->
  (In n (nodes (applyVisibilityGate g v)) <->
   exists o, findOwner (id n) (edges g) = Some o
     /\ (o = v
         \/ (riskLevel n = Some high /\ isParentOf v o (edges g) = true))).
Proof.
  intros Hin Hres Hvis Hfin. rewrite nodes_gate.
  rewrite (nodeVisible_restricted _ _ _ _ Hres).
  unfold failsOpen, effectiveVisibility. rewrite Hvis. simpl Visibility_eqb.
  pose proof (notWithheld_intro _ _ Hfin) as Hkeep.
  assert (Hhigh : is_high (riskLevel n) = true <-> riskLevel n = Some high).
  { destruct (riskLevel n) as [[] |]; simpl; split;
      try reflexivity; discriminate. }
  destruct (findOwner (id n) (edges g)) as [o |].
  - rewrite !orb_true_iff, andb_true_iff, String.eqb_eq, Hhigh. split.
    + intros [_ [H _]]. exists o. tauto.
    + intros [o' [Ho H]]. injection Ho as <-. tauto.
  - split; [intros [_ [H _]]; discriminate H |].
    intros [o [Ho _]]. discriminate Ho.
Qed.

Lemma private_disclosed_iff_witness :
  In Samples.phone (nodes (applyVisibilityGate Samples.household "m-nanny"))
  <->
  exists o,
    findOwner (id Samples.phone) (edges Samples.household) = Some o
    /\ (o = "m-nanny"
        \/ (riskLevel Samples.phone = Some high
            /\ isParentOf "m-nanny" o (edges Samples.household) = true)).
Proof.
  apply private_disclosed_iff.
  - simpl. tauto.
  - repeat split; discriminate.
  - reflexivity.
  - intros _. reflexivity.
Defined.

(** The caregiver role never widens access: a node that the per-node
    decision and the post-filter pass for a viewer with role caregiver is
    passed for the same viewer id and edges under any other role. *)
Theorem caregiver_role_is_most_restricted
    (es : list Edge) (v : string) (r : option Role) (n : FamilyNode) :
  nodeVisible es v (Some caregiver) n = true ->
  notWithheld (Some caregiver) n = true ->
  nodeVisible es v r n = true /\ notWithheld r n = true.
Proof.
  intros Hv Hk. split.
  - revert Hv. unfold nodeVisible.
    destruct (flagSet (isAchievement n)); [reflexivity |].
    destruct (NodeType_eqb (type n) member); [reflexivity |].
    simpl.
    destruct (Visibility_eqb (effectiveVisibility n) family); [reflexivity |].
    destruct (owner_is (findOwner (id n) es) v); [reflexivity |].
    destruct (Visibility_eqb (effectiveVisibility n) health_only).
    + destruct (findOwner (id n) es) as [o |]; [| discriminate].
      rewrite !careTargets_includes.
      destruct (negb (truthy (Some o))); [discriminate |].
      destruct (isParentOf v o es); [reflexivity |].
      destruct (isGrandparentOf v o es); [reflexivity |].
      destruct (isCaregiverOf v o es); [reflexivity |].
      simpl. discriminate.
    + destruct (Visibility_eqb (effectiveVisibility n) guarded);
        [discriminate | tauto].
  - unfold notWithheld in *. simpl in Hk.
    destruct (isFinancialDoc n); [discriminate Hk |].
    now rewrite andb_false_r.
Qed.

Lemma caregiver_role_is_most_restricted_witness :
  nodeVisible (edges Samples.household) "m-nanny" (Some parent)
    Samples.diabetes = true
  /\ notWithheld (Some parent) Samples.diabetes = true.
Proof.
  apply caregiver_role_is_most_restricted; reflexivity.
Defined.

(* ------------------------------------------------------------------ *)
(** ** Further properties of the value filter                          *)
(* ------------------------------------------------------------------ *)

Import Dedup.

Lemma healthTags_member (m : FamilyNode) (tags : list string) :
  healthTags m = Some tags -> NodeType_eqb (type m) member = true.
Proof.
  unfold healthTags, type. destruct (data m); try discriminate.
  reflexivity.
Qed.

Lemma in_tagPairs (nodes : list FamilyNode) (m : FamilyNode)
    (tags : list string) (t : string) :
  In m nodes -> healthTags m = Some tags -> In t tags ->
  In (m, t) (tagPairs nodes).
Proof.
  intros Hin Htags Ht. unfold tagPairs. apply in_flat_map.
  exists m. split.
  - unfold members. apply filter_In. split; [assumption |].
    now apply (healthTags_member _ _ Htags).
  - rewrite Htags. now apply in_map.
Qed.

Lemma tagPairs_inv (nodes : list FamilyNode) (m : FamilyNode) (t : string) :
  In (m, t) (tagPairs nodes) ->
  In m nodes /\ exists tags, healthTags m = Some tags /\ In t tags.
Proof.
  unfold tagPairs. intros H. apply in_flat_map in H.
  destruct H as [m' [Hm' Hin]].
  unfold members in Hm'. apply filter_In in Hm'. destruct Hm' as [Hm' _].
  destruct (healthTags m') as [tags |] eqn:E; [| contradiction].
  apply in_map_iff in Hin. destruct Hin as [t' [Heq Ht']].
  injection Heq as -> ->. split; [assumption |]. now exists tags.
Qed.

(** No health tag is lost: for every member node of the input and every
    tag in its [healthTags], the restriction list holds an entry with
    that member's id and the tag as label. *)
Theorem every_health_tag_is_covered
    (nodes : list FamilyNode) (edges : list Edge)
    (m : FamilyNode) (tags : list string) (t : string) :
  In m nodes -> healthTags m = Some tags -> In t tags ->
  hasKey (value_filter nodes edges) (id m) t.
Proof.
  intros Hin Htags Ht. rewrite value_filter_as_tagPass. unfold tagPass.
  apply hasKey_fold. right. exists m. split; [| reflexivity].
  now apply (in_tagPairs nodes m tags).
Qed.

Lemma every_health_tag_is_covered_witness :
  hasKey (value_filter Samples.dinerNodes Samples.dinerEdges)
    (id Samples.grandma) "Low-Salt Diet".
Proof.
  apply (every_health_tag_is_covered Samples.dinerNodes Samples.dinerEdges
           Samples.grandma ["No Meat"; "Low-Salt Diet"; "Naps"]).
  - simpl. tauto.
  - reflexivity.
  - simpl. tauto.
Defined.

(** What the third pass appends to a list [base]: restrictions built from
    visited pairs, with keys that are new with respect to [base] and
    pairwise distinct. *)
Lemma tag_pass_extends (pairs : list (FamilyNode * string))
    (base : list DietaryRestriction) :
  exists pushed,
    fold_left pairStep pairs base = base ++ pushed
    /\ NoDup (map restrictionKey pushed)
    /\ (forall r, In r pushed -> ~ hasKey base (memberId r) (r_label r))
    /\ (forall r, In r pushed ->
          exists m t, In (m, t) pairs /\ r = tagRestriction m t).
Proof.
  revert base. induction pairs as [| [m t] pairs IH]; intros base; simpl.
  - exists []. rewrite app_nil_r. repeat split.
    + constructor.
    + intros r [].
    + intros r [].
  - unfold pairStep at 2. simpl. unfold tagStep.
    destruct (alreadyHas base m t) eqn:E; simpl.
    + destruct (IH base) as [pushed [Heq [Hnd [Hnew Hsrc]]]].
      exists pushed. repeat split; trivial.
      intros r Hr. destruct (Hsrc r Hr) as [m' [t' [Hin Hrt]]].
      exists m', t'. tauto.
    + destruct (IH (base ++ [tagRestriction m t]))
        as [pushed [Heq [Hnd [Hnew Hsrc]]]].
      exists (tagRestriction m t :: pushed). repeat split.
      * now rewrite Heq, <- app_assoc.
      * simpl. constructor; [| assumption].
        intros Hin. apply in_map_iff in Hin.
        destruct Hin as [r [Hk Hr]]. apply (Hnew r Hr).
        apply hasKey_app. right. exists (tagRestriction m t).
        unfold restrictionKey in Hk. simpl in Hk.
        injection Hk as Hi Hl. simpl.
        split; [now left | split; congruence].
      * intros r [<- | Hr].
        -- simpl. intros H. apply alreadyHas_spec in H.
           rewrite H in E. discriminate E.
        -- intros H. apply (Hnew r Hr). apply hasKey_app. now left.
      * intros r [<- | Hr].
        -- exists m, t. tauto.
        -- destruct (Hsrc r Hr) as [m' [t' [Hin Hrt]]].
           exists m', t'. tauto.
Qed.

Lemma preferenceStep_appends (nodes : list FamilyNode)
    (acc : list DietaryRestriction) (e : Edge) :
  preferenceStep nodes acc e = acc ++ preferenceStep nodes [] e.
Proof.
  unfold preferenceStep.
  destruct (findNode nodes (memberEnd e)) as [mem |];
    [| now rewrite app_nil_r].
  destruct (findNode nodes (otherEnd e)) as [pref |];
    [| now rewrite app_nil_r].
  destruct (category pref) as [[] |]; simpl;
    try reflexivity; now rewrite app_nil_r.
Qed.

Lemma findNode_Some (nodes : list FamilyNode) (x : string) (n : FamilyNode) :
  findNode nodes x = Some n -> In n nodes /\ id n = x.
Proof.
  unfold findNode. intros H. apply find_some in H.
  destruct H as [Hin Hid]. apply String.eqb_eq in Hid. tauto.
Qed.

Lemma preferenceDerived_shape (nodes : list FamilyNode) (edges : list Edge)
    (r : DietaryRestriction) :
  In r (preferenceDerived nodes edges) ->
  r_source r = from_preference /\ r_sentiment r <> None /\ namesNodeOf nodes r.
Proof.
  unfold preferenceDerived.
  rewrite (fold_left_appending _ (preferenceStep_appends nodes)). simpl.
  intros H. apply in_flat_map in H. destruct H as [e [_ Hr]].
  unfold preferenceStep in Hr.
  destruct (findNode nodes (memberEnd e)) as [mem |] eqn:Em; [| contradiction].
  destruct (findNode nodes (otherEnd e)) as [pref |]; [| contradiction].
  unfold category, sentiment in Hr.
  destruct (data pref) as [| [] s | | | |]; simpl in Hr; try contradiction.
  destruct Hr as [<- | []]. simpl. repeat split; try discriminate.
  apply findNode_Some in Em. exists mem. tauto.
Qed.

Lemma healthDerived_shape (nodes : list FamilyNode) (edges : list Edge)
    (r : DietaryRestriction) :
  In r (healthDerived nodes edges) ->
  r_source r = from_health /\ namesNodeOf nodes r.
Proof.
  unfold healthDerived.
  rewrite (fold_left_appending _ (healthStep_appends nodes)). simpl.
  intros H. apply in_flat_map in H. destruct H as [e [_ Hr]].
  unfold healthStep in Hr.
  destruct (findNode nodes (memberEnd e)) as [mem |] eqn:Em; [| contradiction].
  destruct (findNode nodes (otherEnd e)) as [hlth |]; [| contradiction].
  destruct (dietaryKeywords_test (label hlth)
            || dietaryKeywords_test_field (condition hlth));
    simpl in Hr; [| contradiction].
  destruct Hr as [<- | []]. simpl. split; [reflexivity |].
  apply findNode_Some in Em. exists mem. tauto.
Qed.

(** Layout of the restriction list: the preference-derived entries come
    first, then the entries derived from health nodes, then the entries
    pushed for health tags.  The first group has source preference and a
    sentiment; the other two have source health. *)
Theorem value_filter_layout (nodes : list FamilyNode) (edges : list Edge) :
  exists pushed,
    value_filter nodes edges
    = preferenceDerived nodes edges ++ healthDerived nodes edges ++ pushed
    /\ Forall (fun r => r_source r = from_preference /\ r_sentiment r <> None)
         (preferenceDerived nodes edges)
    /\ Forall (fun r => r_source r = from_health)
         (healthDerived nodes edges ++ pushed)
    /\ Forall (fun r => exists m t, In (m, t) (tagPairs nodes)
                                    /\ r = tagRestriction m t) pushed.
Proof.
  rewrite value_filter_as_tagPass. unfold tagPass.
  destruct (tag_pass_extends (tagPairs nodes)
              (preferenceDerived nodes edges ++ healthDerived nodes edges))
    as [pushed [Heq [_ [_ Hsrc]]]].
  exists pushed. repeat split.
  - now rewrite Heq, <- app_assoc.
  - apply Forall_forall. intros r Hr.
    apply preferenceDerived_shape in Hr. tauto.
  - apply Forall_forall. intros r Hr. apply in_app_or in Hr.
    destruct Hr as [Hr | Hr].
    + apply healthDerived_shape in Hr. tauto.
    + destruct (Hsrc r Hr) as [m [t [_ ->]]]. reflexivity.
  - apply Forall_forall. intros r Hr. now apply Hsrc.
Qed.

(** Deduplication of the health tags: the entries pushed for health tags
    have pairwise distinct (member id, label) pairs, and none of them
    repeats the pair of a preference-derived or health-node-derived
    entry. *)
Theorem pushed_tags_have_fresh_keys
    (nodes : list FamilyNode) (edges : list Edge) :
  exists pushed,
    value_filter nodes edges
    = (preferenceDerived nodes edges ++ healthDerived nodes edges) ++ pushed
    /\ NoDup (map restrictionKey pushed)
    /\ forall r, In r pushed ->
         ~ hasKey (preferenceDerived nodes edges ++ healthDerived nodes edges)
             (memberId r) (r_label r).
Proof.
  rewrite value_filter_as_tagPass. unfold tagPass.
  destruct (tag_pass_extends (tagPairs nodes)
              (preferenceDerived nodes edges ++ healthDerived nodes edges))
    as [pushed [Heq [Hnd [Hnew _]]]].
  exists pushed. tauto.
Qed.

(** Every restriction names a node of the input: its member id and
    member label are the id and the label of one node of [nodes]. *)
Theorem restrictions_name_input_nodes
    (nodes : list FamilyNode) (edges : list Edge) (r : DietaryRestriction) :
  In r (value_filter nodes edges) -> namesNodeOf nodes r.
Proof.
  rewrite value_filter_as_tagPass. unfold tagPass.
  destruct (tag_pass_extends (tagPairs nodes)
              (preferenceDerived nodes edges ++ healthDerived nodes edges))
    as [pushed [Heq [_ [_ Hsrc]]]].
  rewrite Heq. intros Hr. apply in_app_or in Hr.
  destruct Hr as [Hr | Hr]; [apply in_app_or in Hr; destruct Hr as [Hr | Hr] |].
  - apply preferenceDerived_shape in Hr. tauto.
  - apply healthDerived_shape in Hr. tauto.
  - destruct (Hsrc r Hr) as [m [t [Hin ->]]].
    apply tagPairs_inv in Hin. exists m. simpl. tauto.
Qed.

Lemma restrictions_name_input_nodes_witness :
  namesNodeOf Samples.dinerNodes (tagRestriction Samples.grandma "Naps").
Proof.
  apply (restrictions_name_input_nodes Samples.dinerNodes Samples.dinerEdges).
  vm_compute. tauto.
Defined.

(* ------------------------------------------------------------------ *)
(** ** Insertion-ordered maps: lookup after update                     *)
(* ------------------------------------------------------------------ *)

Section JsMapFacts.
Variable V : Type.

Lemma get_set_same (m : list (string * V)) (k : string) (v : V) :
  JsMap.get (JsMap.set m k v) k = Some v.
Proof.
  induction m as [| [k' v'] m IH]; simpl.
  - now rewrite String.eqb_refl.
  - destruct (k' =? k) eqn:E; simpl; rewrite E; [reflexivity | apply IH].
Qed.

Lemma get_set_other (m : list (string * V)) (k k' : string) (v : V) :
  k' <> k -> JsMap.get (JsMap.set m k v) k' = JsMap.get m k'.
Proof.
  intros Hne. induction m as [| [k0 v0] m IH]; simpl.
  - destruct (k =? k') eqn:E; [| reflexivity].
    apply String.eqb_eq in E. now elim Hne.
  - destruct (k0 =? k) eqn:E; simpl.
    + apply String.eqb_eq in E. subst k0.
      destruct (k =? k') eqn:E'; [| reflexivity].
      apply String.eqb_eq in E'. now elim Hne.
    + now rewrite IH.
Qed.

Lemma keys_set (m : list (string * V)) (k : string) (v : V) (k' : string) :
  In k' (map fst (JsMap.set m k v)) <-> In k' (map fst m) \/ k' = k.
Proof.
  induction m as [| [k0 v0] m IH]; simpl.
  - intuition.
  - destruct (k0 =? k) eqn:E; simpl.
    + apply String.eqb_eq in E. subst k0. intuition.
    + rewrite IH. tauto.
Qed.

Lemma NoDup_keys_set (m : list (string * V)) (k : string) (v : V) :
  NoDup (map fst m) -> NoDup (map fst (JsMap.set m k v)).
Proof.
  induction m as [| [k0 v0] m IH]; simpl; intros H.
  - constructor; [intros [] | constructor].
  - inversion H as [| ? ? Hnot Hrest]; subst.
    destruct (k0 =? k) eqn:E; simpl.
    + now constructor.
    + constructor; [| now apply IH].
      rewrite keys_set. intros [Hin | ->]; [contradiction |].
      rewrite String.eqb_refl in E. discriminate E.
Qed.

Lemma get_Some_In (m : list (string * V)) (k : string) (v : V) :
  JsMap.get m k = Some v -> In (k, v) m.
Proof.
  induction m as [| [k0 v0] m IH]; simpl; [discriminate |].
  destruct (k0 =? k) eqn:E.
  - apply String.eqb_eq in E. subst k0. intros H. injection H as ->.
    now left.
  - intros H. right. now apply IH.
Qed.

Lemma In_get_Some (m : list (string * V)) (k : string) (v : V) :
  NoDup (map fst m) -> In (k, v) m -> JsMap.get m k = Some v.
Proof.
  induction m as [| [k0 v0] m IH]; simpl; intros Hnd Hin; [contradiction |].
  inversion Hnd as [| ? ? Hnot Hrest]; subst.
  destruct Hin as [Heq | Hin].
  - injection Heq as -> ->. now rewrite String.eqb_refl.
  - destruct (k0 =? k) eqn:E; [| now apply IH].
    apply String.eqb_eq in E. subst k0. exfalso. apply Hnot.
    apply in_map_iff. now exists (k, v).
Qed.
End JsMapFacts.

(* ------------------------------------------------------------------ *)
(** ** Properties of the texts of the value filter                     *)
(* ------------------------------------------------------------------ *)

Import FilterText.

(** The restrictions of [rs] that carry the member label [k]. *)
Lemma groupByMember_get (rs : list DietaryRestriction) :
  NoDup (map fst (groupByMember rs))
  /\ forall k, JsMap.get (groupByMember rs) k
               = match filter (fun r => memberLabel r =? k) rs with
                 | [] => None
                 | grp => Some grp
                 end.
Proof.
  unfold groupByMember.
  induction rs as [| r rs IH] using rev_ind; simpl.
  - split; [constructor | reflexivity].
  - rewrite fold_left_app. simpl. destruct IH as [Hnd Hget].
    unfold groupStep at 1 3. split; [now apply NoDup_keys_set |].
    intros k. rewrite filter_app. simpl.
    destruct (memberLabel r =? k) eqn:E.
    + apply String.eqb_eq in E. subst k.
      rewrite get_set_same, Hget.
      destruct (filter (fun r0 => memberLabel r0 =? memberLabel r) rs);
        reflexivity.
    + rewrite get_set_other.
      * rewrite Hget, app_nil_r. reflexivity.
      * intros ->. rewrite String.eqb_refl in E. discriminate E.
Qed.

(** Grouping of the food instruction: the map built by the loop has one
    entry per member label that occurs, and the entry of a label holds
    exactly the restrictions with that label, in their original order.
    Restrictions of different members with the same label share one
    entry. *)
Theorem groupByMember_one_entry_per_label
    (rs : list DietaryRestriction) (k : string)
    (grp : list DietaryRestriction) :
  NoDup (map fst (groupByMember rs))
  /\ (In (k, grp) (groupByMember rs) <->
      grp <> [] /\ grp = filter (fun r => memberLabel r =? k) rs).
Proof.
  destruct (groupByMember_get rs) as [Hnd Hget].
  split; [assumption |]. split.
  - intros Hin. apply (In_get_Some _ _ _ _ Hnd) in Hin.
    rewrite Hget in Hin.
    destruct (filter (fun r => memberLabel r =? k) rs) as [| r0 rest];
      [discriminate Hin |].
    injection Hin as <-. split; [discriminate | reflexivity].
  - intros [Hne ->]. apply get_Some_In. rewrite Hget.
    destruct (filter (fun r => memberLabel r =? k) rs); [now elim Hne |].
    reflexivity.
Qed.

Lemma buildFoodInstruction_nil (rs : list DietaryRestriction) :
  buildFoodInstruction rs = noRestrictionsText <-> rs = [].
Proof.
  destruct rs as [| r rs]; simpl.
  - split; reflexivity.
  - split; intros H; discriminate H.
Qed.

(** The food instruction is the "Order freely" text exactly when the
    list of restrictions is empty. *)
Theorem buildFoodInstruction_free_iff_empty (rs : list DietaryRestriction) :
  buildFoodInstruction rs = noRestrictionsText <-> rs = [].
Proof.
  destruct rs as [| r rs]; simpl.
  - split; reflexivity.
  - split; intros H; discriminate H.
Qed.

Lemma soft_restriction_iff (r : DietaryRestriction) :
  isHealth r = false /\ isAvoidedPreference r = false <->
  r_source r = from_preference /\ r_sentiment r <> Some avoids.
Proof.
  unfold isHealth, isAvoidedPreference.
  destruct (r_source r), (r_sentiment r) as [[] |]; simpl;
    split; intros [H1 H2]; split;
    try reflexivity; try discriminate; try assumption.
  now elim H2.
Qed.

Lemma mustAvoid_nil_iff (rs : list DietaryRestriction) :
  mustAvoid rs = [] <->
  Forall (fun r => r_source r = from_preference
                   /\ r_sentiment r <> Some avoids) rs.
Proof.
  unfold mustAvoid. induction rs as [| r rs IH]; simpl.
  - split; [constructor | reflexivity].
  - destruct (isHealth r) eqn:Eh; simpl.
    + split; intros H; [discriminate H |].
      inversion H as [| ? ? Hr _]. apply soft_restriction_iff in Hr.
      rewrite Eh in Hr. destruct Hr as [Hr _]. discriminate Hr.
    + destruct (isAvoidedPreference r) eqn:Ea; simpl.
      * split; intros H.
        -- apply app_eq_nil in H. destruct H as [_ H]. discriminate H.
        -- inversion H as [| ? ? Hr _]. apply soft_restriction_iff in Hr.
           rewrite Ea in Hr. destruct Hr as [_ Hr]. discriminate Hr.
      * rewrite IH. split; intros H.
        -- constructor; [| assumption]. apply soft_restriction_iff. tauto.
        -- now inversion H.
Qed.

(** The value note is the "No hard restrictions" text exactly when no
    restriction has source health and no preference restriction has the
    sentiment avoids; preferences that are liked, loved or disliked never
    count as hard restrictions. *)
Theorem buildCpNote_no_hard_restrictions_iff (rs : list DietaryRestriction) :
  buildCpNote rs = noHardRestrictionsText <->
  Forall (fun r => r_source r = from_preference
                   /\ r_sentiment r <> Some avoids) rs.
Proof.
  rewrite <- mustAvoid_nil_iff. unfold buildCpNote.
  destruct (mustAvoid rs) as [| l ls]; simpl.
  - split; reflexivity.
  - split; intros H; discriminate H.
Qed.

(** The instruction of the value filter tells to order freely exactly
    when no has_preference edge and no has_health_condition edge yields a
    restriction and no member node carries a health tag. *)
Theorem instruction_free_iff_nothing_recorded
    (nodes : list FamilyNode) (edges : list Edge) :
  instruction (value_filter_result nodes edges) = noRestrictionsText <->
  preferenceDerived nodes edges = []
  /\ healthDerived nodes edges = []
  /\ tagPairs nodes = [].
Proof.
  unfold value_filter_result. simpl.
  rewrite buildFoodInstruction_nil, value_filter_as_tagPass.
  unfold tagPass. split.
  - intros H.
    destruct (tag_pass_extends (tagPairs nodes)
                (preferenceDerived nodes edges ++ healthDerived nodes edges))
      as [pushed [Heq _]].
    rewrite H in Heq. symmetry in Heq.
    apply app_eq_nil in Heq. destruct Heq as [Hbase _].
    apply app_eq_nil in Hbase. destruct Hbase as [Hp Hh].
    repeat split; trivial.
    destruct (tagPairs nodes) as [| [m t] rest] eqn:Ep; [reflexivity |].
    exfalso.
    assert (Hk : hasKey (fold_left pairStep ((m, t) :: rest)
                           (preferenceDerived nodes edges
                            ++ healthDerived nodes edges)) (id m) t).
    { apply hasKey_fold. right. exists m. simpl. tauto. }
    rewrite H in Hk. destruct Hk as [r [[] _]].
  - intros [-> [-> ->]]. reflexivity.
Qed.

(* ------------------------------------------------------------------ *)
(** ** Properties of the graph view                                    *)
(* ------------------------------------------------------------------ *)

Import GraphView.

Lemma inherited_proto : inherited "__proto__" = true.
Proof. reflexivity. Qed.

(** A slot that holds no number keeps holding none. *)
Lemma assign_keeps_notANumber (counts : list (string * CountValue))
    (k' k : string) :
  countOf counts k = notANumber ->
  countOf (assign counts k' (plusOne (countOf counts k'))) k = notANumber.
Proof.
  intros H. unfold assign. destruct (k' =? "__proto__"); [assumption |].
  destruct (String.eqb_spec k' k) as [-> | Hne].
  - unfold countOf at 1. rewrite get_set_same. now rewrite H.
  - unfold countOf at 1. rewrite get_set_other by congruence. exact H.
Qed.

(** A numeric slot of an ordinary key grows by one when its key is
    assigned. *)
Lemma assign_counts_number (counts : list (string * CountValue))
    (k' k : string) (d : nat) :
  inherited k = false ->
  countOf counts k = numberValue d ->
  countOf (assign counts k' (plusOne (countOf counts k'))) k
  = numberValue (d + if k' =? k then 1 else 0).
Proof.
  intros Hk H. unfold assign.
  destruct (String.eqb_spec k' "__proto__") as [-> | Hproto].
  - destruct (String.eqb_spec "__proto__" k) as [<- | _].
    + rewrite inherited_proto in Hk. discriminate Hk.
    + rewrite H. f_equal. lia.
  - destruct (String.eqb_spec k' k) as [-> | Hne].
    + unfold countOf at 1. rewrite get_set_same. now rewrite H.
    + unfold countOf at 1. rewrite get_set_other by congruence.
      fold (countOf counts k). rewrite H. f_equal. lia.
Qed.

Lemma countOf_connectionCount (es : list Edge) (k : string) :
  countOf (connectionCount es) k
  = if inherited k then notANumber else numberValue (degree es k).
Proof.
  unfold connectionCount, degree.
  induction es as [| e es IH] using rev_ind.
  - simpl. unfold countOf. simpl. now destruct (inherited k).
  - rewrite fold_left_app. simpl. unfold countStep.
    destruct (inherited k) eqn:Hk.
    + now do 2 apply assign_keeps_notANumber.
    + rewrite (assign_counts_number _ _ _ _ Hk
                 (assign_counts_number _ _ _ _ Hk IH)).
      rewrite !filter_app, !length_app. simpl. f_equal.
      destruct (source e =? k), (target e =? k); simpl; lia.
Qed.

(** What [connectionCount[k] || 0] reads.  For an ordinary id it is the
    number of edge ends of the gated graph that carry the id: a self-loop
    counts twice, and an id that no edge mentions reads as 0.  For an id
    that names a member of [Object.prototype] it is never a number. *)
Theorem connectionCount_is_degree (es : list Edge) (k : string) :
  countOf (connectionCount es) k
  = if inherited k then notANumber
    else numberValue
           (length (filter (fun e => source e =? k) es)
            + length (filter (fun e => target e =? k) es)).
Proof.
  apply countOf_connectionCount.
Qed.

Lemma recordOwner_findOwner (owners : list (string * string)) (x : string)
    (es : list Edge) :
  recordOwner owners x es
  = match findOwner x es with
    | Some o => assign owners x o
    | None => owners
    end.
Proof.
  induction es as [| e es IH]; simpl; [reflexivity |].
  unfold ownerFromEdge.
  destruct ((target e =? x) && prefix "m-" (source e)) eqn:E1.
  - apply andb_true_iff in E1. destruct E1 as [_ Hp].
    simpl. now rewrite (prefix_m_nonempty _ Hp).
  - destruct ((source e =? x) && prefix "m-" (target e)) eqn:E2.
    + apply andb_true_iff in E2. destruct E2 as [_ Hp].
      simpl. now rewrite (prefix_m_nonempty _ Hp).
    + simpl. apply IH.
Qed.

Lemma nodeOwnerMap_entries (raw : FamilyGraph) (k : string) :
  JsMap.get (nodeOwnerMap raw) k
  = if negb (k =? "__proto__")
       && existsb (fun n => negb (NodeType_eqb (type n) member)
                            && (id n =? k)) (nodes raw)
    then findOwner k (edges raw)
    else None.
Proof.
  unfold nodeOwnerMap.
  induction (nodes raw) as [| n ns IH] using rev_ind; simpl.
  - now rewrite andb_false_r.
  - rewrite fold_left_app, existsb_app. simpl. rewrite orb_false_r.
    unfold ownerStep at 1.
    destruct (NodeType_eqb (type n) member); simpl.
    + now rewrite orb_false_r.
    + rewrite recordOwner_findOwner. unfold assign.
      destruct (String.eqb_spec (id n) k) as [Hid | Hne].
      * subst k. rewrite orb_true_r.
        destruct (id n =? "__proto__") eqn:Ep; simpl.
        -- destruct (findOwner (id n) (edges raw)); rewrite IH;
             reflexivity.
        -- destruct (findOwner (id n) (edges raw)) as [o |] eqn:Eo.
           ++ apply get_set_same.
           ++ rewrite IH. simpl. now destruct (existsb _ ns).
      * rewrite orb_false_r.
        destruct (findOwner (id n) (edges raw)) as [o |]; [| assumption].
        destruct (id n =? "__proto__"); [assumption |].
        rewrite get_set_other by congruence. assumption.
Qed.

(** The owner map of the view agrees with [findOwner], except at the id
    [__proto__].  The object holds an entry for an id exactly when the id
    is not [__proto__], some non-member node of the gated graph carries
    it and [findOwner] resolves an owner over the gated edges, and the
    entry is that owner; so the test [nodeOwnerMap[k] === viewerId]
    succeeds exactly when, in addition, that owner is the viewer. *)
Theorem nodeOwnerMap_agrees_with_findOwner
    (raw : FamilyGraph) (k viewer : string) :
  JsMap.get (nodeOwnerMap raw) k
  = (if negb (k =? "__proto__")
        && existsb (fun n => negb (NodeType_eqb (type n) member)
                             && (id n =? k)) (nodes raw)
     then findOwner k (edges raw)
     else None)
  /\ ownerEntryIs (nodeOwnerMap raw) k viewer
     = negb (k =? "__proto__")
       && existsb (fun n => negb (NodeType_eqb (type n) member)
                            && (id n =? k)) (nodes raw)
       && owner_is (findOwner k (edges raw)) viewer.
Proof.
  split; [apply nodeOwnerMap_entries |].
  unfold ownerEntryIs. rewrite nodeOwnerMap_entries.
  destruct (negb (k =? "__proto__")
            && existsb (fun n => negb (NodeType_eqb (type n) member)
                                 && (id n =? k)) (nodes raw));
    reflexivity.
Qed.

Lemma in_add (ids : list string) (y x : string) :
  In x (add ids y) <-> In x ids \/ x = y.
Proof.
  unfold add. destruct (includes ids y) eqn:E.
  - apply includes_In in E. split; [tauto |].
    intros [H | ->]; assumption.
  - rewrite in_app_iff. simpl. intuition.
Qed.

Lemma NoDup_add (ids : list string) (y : string) :
  NoDup ids -> NoDup (add ids y).
Proof.
  intros H. unfold add. destruct (includes ids y) eqn:E; [assumption |].
  apply NoDup_app; trivial.
  - constructor; [intros [] | constructor].
  - intros x Hin [<- | []]. apply includes_In in Hin.
    rewrite Hin in E. discriminate E.
Qed.

Lemma highlight_fold (f : string) (es : list Edge) (ids : list string)
    (x : string) :
  (In x (fold_left (highlightStep f) es ids) <->
   In x ids \/ exists e, In e es /\ joins f x e)
  /\ (NoDup ids -> NoDup (fold_left (highlightStep f) es ids)).
Proof.
  revert ids. induction es as [| e es IH]; intros ids; simpl.
  - split; [| tauto]. split; [tauto |].
    intros [H | [e [[] _]]]. assumption.
  - destruct (IH (highlightStep f ids e)) as [IHin IHnd].
    split.
    + rewrite IHin. unfold highlightStep, joins.
      destruct (source e =? f) eqn:Es.
      * apply String.eqb_eq in Es. rewrite in_add. split.
        -- intros [[H | ->] | [e' [He' Hj]]].
           ++ tauto.
           ++ right. exists e. tauto.
           ++ right. exists e'. tauto.
        -- intros [H | [e' [[<- | He'] Hj]]].
           ++ tauto.
           ++ left. right. destruct Hj as [[_ Ht] | [Ht Hs]]; congruence.
           ++ right. exists e'. tauto.
      * destruct (target e =? f) eqn:Et.
        -- apply String.eqb_eq in Et. rewrite in_add. split.
           ++ intros [[H | ->] | [e' [He' Hj]]].
              ** tauto.
              ** right. exists e. tauto.
              ** right. exists e'. tauto.
           ++ intros [H | [e' [[<- | He'] Hj]]].
              ** tauto.
              ** left. right. destruct Hj as [[Hs _] | [_ Hs]];
                   [| congruence].
                 rewrite Hs, String.eqb_refl in Es. discriminate Es.
              ** right. exists e'. tauto.
        -- split.
           ++ intros [H | [e' [He' Hj]]]; [tauto |].
              right. exists e'. tauto.
           ++ intros [H | [e' [[<- | He'] Hj]]].
              ** tauto.
              ** exfalso. destruct Hj as [[Hs _] | [Ht _]].
                 --- rewrite Hs, String.eqb_refl in Es. discriminate Es.
                 --- rewrite Ht, String.eqb_refl in Et. discriminate Et.
              ** right. exists e'. tauto.
    + intros Hnd. apply IHnd. unfold highlightStep.
      destruct (source e =? f); [now apply NoDup_add |].
      destruct (target e =? f); [now apply NoDup_add | assumption].
Qed.

(** The highlighted set of a focus: it exists exactly when the focus is a
    non-empty id, holds no id twice, and holds the focus itself together
    with every id that an edge joins to the focus, in either direction. *)
Theorem highlightedIds_are_focus_and_neighbours
    (focus : option string) (es : list Edge) :
  (highlightedIds focus es = None <-> truthy focus = false)
  /\ forall f ids, focus = Some f -> highlightedIds focus es = Some ids ->
       NoDup ids
       /\ forall x, In x ids <-> x = f \/ exists e, In e es /\ joins f x e.
Proof.
  split.
  - unfold highlightedIds. destruct focus as [f |]; simpl.
    + destruct (f =? ""); simpl; split; try reflexivity; discriminate.
    + split; reflexivity.
  - intros f ids -> H. unfold highlightedIds in H.
    destruct (negb (truthy (Some f))); [discriminate H |].
    injection H as <-.
    split.
    + apply highlight_fold; [exact f |]. apply NoDup_add. constructor.
    + intros x. rewrite (proj1 (highlight_fold f es (add [] f) x)).
      rewrite in_add. simpl. tauto.
Qed.

Lemma highlightedIds_are_focus_and_neighbours_witness :
  NoDup ["m-kid"; "m-dad"; "d-phone"; "doc-trophy"]
  /\ forall x, In x ["m-kid"; "m-dad"; "d-phone"; "doc-trophy"] <->
       x = "m-kid"
       \/ exists e, In e (edges Samples.household) /\ joins "m-kid" x e.
Proof.
  apply (proj2 (highlightedIds_are_focus_and_neighbours
                  (Some "m-kid") (edges Samples.household))).
  - reflexivity.
  - reflexivity.
Defined.

Lemma shownNodes_incl (s : GraphSettingsState) (raw : FamilyGraph)
    (focus : option string) (n : FamilyNode) :
  In n (shownNodes (graphData s raw focus)) ->
  In n (nodes raw) /\ visibleTypes s (type n) = true.
Proof.
  unfold graphData. simpl. intros H.
  destruct (negb (showUnconnected s) && truthy focus
            && isSome (highlightedIds focus (edges raw)));
    [apply filter_In in H; destruct H as [H _] |].
  all: destruct (negb (showLeafNodes s));
    [apply filter_In in H; destruct H as [H _] |].
  all: apply filter_In in H; exact H.
Qed.

(** The graph handed to the renderer is consistent and within the gated
    graph: every shown node is a node of the gated graph of a type that
    the settings show, and every link joins two shown nodes. *)
Theorem graphData_is_consistent_subgraph
    (s : GraphSettingsState) (raw : FamilyGraph) (focus : option string) :
  Forall (fun n => In n (nodes raw) /\ visibleTypes s (type n) = true)
    (shownNodes (graphData s raw focus))
  /\ Forall (fun l =>
       In (link_source l) (map id (shownNodes (graphData s raw focus)))
       /\ In (link_target l) (map id (shownNodes (graphData s raw focus)))
       /\ exists e, In e (edges raw) /\ l = toLink e)
      (links (graphData s raw focus)).
Proof.
  split.
  - apply Forall_forall. intros n. apply shownNodes_incl.
  - apply Forall_forall. intros l Hl.
    unfold graphData in Hl. simpl in Hl. apply in_map_iff in Hl.
    destruct Hl as [e [<- He]]. apply filter_In in He.
    destruct He as [He Hends]. apply andb_true_iff in Hends.
    destruct Hends as [Hs Ht]. apply includes_In in Hs, Ht.
    repeat split; trivial. now exists e.
Qed.

(** With every node type shown and the leaf and focus filters off, the
    renderer receives the gated graph as it is: the same nodes, and one
    link for every gated edge. *)
Theorem permissive_settings_show_gated_graph
    (s : GraphSettingsState) (g : FamilyGraph) (v : string)
    (focus : option string) :
  (forall t, visibleTypes s t = true) ->
  showLeafNodes s = true ->
  showUnconnected s = true ->
  graphData s (applyVisibilityGate g v) focus
  = {| shownNodes := nodes (applyVisibilityGate g v);
       links := map toLink (edges (applyVisibilityGate g v)) |}.
Proof.
  intros Hall Hleaf Hunc.
  assert (Hcons : forall e, In e (edges (applyVisibilityGate g v)) ->
            includes (map id (nodes (applyVisibilityGate g v))) (source e)
            && includes (map id (nodes (applyVisibilityGate g v))) (target e)
            = true).
  { intros e He. rewrite edges_gate in He. apply filter_In in He. tauto. }
  revert Hcons. generalize (applyVisibilityGate g v). intros raw Hcons.
  unfold graphData. rewrite Hleaf, Hunc. simpl.
  rewrite (filter_all _ (fun n => visibleTypes s (type n)))
    by (intros n _; apply Hall).
  f_equal. f_equal. now apply filter_all.
Qed.

Lemma permissive_settings_show_gated_graph_witness :
  graphData (mkSettings None "m-sis" true true (fun _ => true) 50 50 50 50)
    (applyVisibilityGate Samples.household "m-sis") (Some "m-kid")
  = {| shownNodes := nodes (applyVisibilityGate Samples.household "m-sis");
       links := map toLink
                  (edges (applyVisibilityGate Samples.household "m-sis")) |}.
Proof.
  apply permissive_settings_show_gated_graph.
  - intros t. reflexivity.
  - reflexivity.
  - reflexivity.
Defined.

(** With the focus filter on (unconnected nodes not shown) and a
    non-empty focus, every shown node is the focus or is joined to the
    focus by an edge of the gated graph. *)
Theorem focus_filter_shows_focus_and_neighbours
    (s : GraphSettingsState) (raw : FamilyGraph) (f : string)
    (n : FamilyNode) :
  showUnconnected s = false ->
  f <> "" ->
  In n (shownNodes (graphData s raw (Some f))) ->
  id n = f \/ exists e, In e (edges raw) /\ joins f (id n) e.
Proof.
  intros Hunc Hf Hin. unfold graphData in Hin. simpl in Hin.
  rewrite Hunc in Hin.
  assert (Ef : (f =? "") = false) by now apply String.eqb_neq.
  unfold highlightedIds in Hin. simpl in Hin. rewrite Ef in Hin.
  simpl in Hin. apply filter_In in Hin. destruct Hin as [_ Hin].
  apply includes_In in Hin.
  apply (proj1 (highlight_fold f (edges raw) (add [] f) (id n))) in Hin.
  rewrite in_add in Hin. simpl in Hin. tauto.
Qed.

Lemma focus_filter_shows_focus_and_neighbours_witness :
  id Samples.phone = "m-kid"
  \/ exists e, In e (edges Samples.household)
               /\ joins "m-kid" (id Samples.phone) e.
Proof.
  apply (focus_filter_shows_focus_and_neighbours
           (mkSettings None "m-dad" false true (fun _ => true) 50 50 50 50)
           Samples.household "m-kid" Samples.phone).
  - reflexivity.
  - discriminate.
  - vm_compute. tauto.
Defined.

(** With leaf nodes hidden, every shown node has at least two edge ends
    in the gated graph. *)
Theorem hidden_leaves_leave_connected_nodes
    (s : GraphSettingsState) (raw : FamilyGraph) (focus : option string)
    (n : FamilyNode) :
  showLeafNodes s = false ->
  In n (shownNodes (graphData s raw focus)) ->
  2 <= degree (edges raw) (id n).
Proof.
  intros Hleaf Hin. unfold graphData in Hin. simpl in Hin.
  rewrite Hleaf in Hin. simpl in Hin.
  destruct (negb (showUnconnected s) && truthy focus
            && isSome (highlightedIds focus (edges raw)));
    [apply filter_In in Hin; destruct Hin as [Hin _] |].
  all: apply filter_In in Hin; destruct Hin as [_ Hin].
  all: rewrite countOf_connectionCount in Hin.
  all: destruct (inherited (id n)); [discriminate Hin |].
  all: simpl in Hin; apply Nat.ltb_lt in Hin; lia.
Qed.

Lemma hidden_leaves_leave_connected_nodes_witness :
  2 <= degree (edges Samples.household) (id Samples.kid).
Proof.
  apply (hidden_leaves_leave_connected_nodes
           (mkSettings None "m-dad" true false (fun _ => true) 50 50 50 50)
           Samples.household None Samples.kid).
  - reflexivity.
  - vm_compute. tauto.
Defined.

(* ------------------------------------------------------------------ *)
(** ** Data appended to the graph                                      *)
(* ------------------------------------------------------------------ *)

Lemma findOwner_app_kept (x o : string) (es extra : list Edge) :
  findOwner x es = Some o -> findOwner x (es ++ extra) = Some o.
Proof.
  induction es as [| e es IH]; simpl; [discriminate |].
  destruct ((target e =? x) && prefix "m-" (source e)); [tauto |].
  destruct ((source e =? x) && prefix "m-" (target e)); [tauto |].
  apply IH.
Qed.

Lemma hasRelation_app_kept (r : EdgeRelation) (a b : string)
    (es extra : list Edge) :
  hasRelation r a b es = true -> hasRelation r a b (es ++ extra) = true.
Proof.
  unfold hasRelation. rewrite existsb_app. intros ->. reflexivity.
Qed.

Lemma find_app_found (A : Type) (p : A -> bool) (l extra : list A) :
  find p l <> None -> find p (l ++ extra) = find p l.
Proof.
  induction l as [| a l IH]; simpl; intros H; [now elim H |].
  destruct (p a); [reflexivity | now apply IH].
Qed.

(** Appended nodes and edges never hide anything from a viewer that the
    loaded graph already contains: every node and every edge that the
    gate discloses on the loaded graph is disclosed on the graph extended
    by the extra nodes and edges. *)
Theorem appended_data_never_hides
    (base : FamilyGraph) (extraNodes : option (list FamilyNode))
    (extraEdges : option (list Edge)) (v : string) :
  find (fun n => id n =? v) (nodes base) <> None ->
  incl (nodes (applyVisibilityGate base v))
       (nodes (applyVisibilityGate
                 (fullData base None extraNodes extraEdges) v))
  /\ incl (edges (applyVisibilityGate base v))
          (edges (applyVisibilityGate
                    (fullData base None extraNodes extraEdges) v)).
Proof.
  intros Hfound. unfold fullData.
  destruct (negb (hasLength extraNodes) && negb (hasLength extraEdges));
    [split; apply incl_refl |].
  set (merged := {| nodes := nodes base ++ orEmpty extraNodes;
                    edges := edges base ++ orEmpty extraEdges;
                    synapseEvents := None |}).
  assert (Hrole : viewerRoleOf merged v = viewerRoleOf base v).
  { unfold viewerRoleOf, merged. simpl. now rewrite find_app_found. }
  assert (Hnodes : incl (nodes (applyVisibilityGate base v))
                        (nodes (applyVisibilityGate merged v))).
  { intros n Hn. apply nodes_gate in Hn. destruct Hn as [Hin [Hv Hk]].
    apply nodes_gate. rewrite Hrole. repeat split; trivial.
    - unfold merged. simpl. apply in_or_app. now left.
    - revert Hv. unfold merged. simpl. apply nodeVisible_preserved.
      intros o Ho. split; [now apply findOwner_app_kept |].
      intros rel. split; apply hasRelation_app_kept. }
  split; [assumption |].
  intros e He. rewrite edges_gate in He. apply filter_In in He.
  destruct He as [He Hends]. apply andb_true_iff in Hends.
  destruct Hends as [Hs Ht]. apply includes_In in Hs, Ht.
  rewrite edges_gate. apply filter_In. split.
  - unfold merged. simpl. apply in_or_app. now left.
  - apply andb_true_iff. split; apply includes_In.
    + revert Hs. apply incl_map. assumption.
    + revert Ht. apply incl_map. assumption.
Qed.

Lemma appended_data_never_hides_witness :
  incl (nodes (applyVisibilityGate Samples.household "m-dad"))
       (nodes (applyVisibilityGate
                 (fullData Samples.household None
                    (Some [Samples.medal])
                    (Some [Samples.edgeOf "x1" "m-sis" "doc-medal" authored]))
                 "m-dad"))
  /\ incl (edges (applyVisibilityGate Samples.household "m-dad"))
          (edges (applyVisibilityGate
                    (fullData Samples.household None
                       (Some [Samples.medal])
                       (Some [Samples.edgeOf "x1" "m-sis" "doc-medal" authored]))
                    "m-dad")).
Proof.
  apply appended_data_never_hides.
  vm_compute. discriminate.
Defined.

(* ------------------------------------------------------------------ *)
(** ** Risk and achievement badges of the members                      *)
(* ------------------------------------------------------------------ *)

Lemma fold_left_invariant {A B : Type} (step : B -> A -> B)
    (Inv : B -> Prop) (xs : list A) (init : B) :
  Inv init ->
  (forall acc x, In x xs -> Inv acc -> Inv (step acc x)) ->
  Inv (fold_left step xs init).
Proof.
  revert init. induction xs as [| x xs IH]; intros init H0 Hstep; simpl;
    [assumption |].
  apply IH.
  - apply Hstep; [now left | assumption].
  - intros acc y Hy. apply Hstep. now right.
Qed.

(** What makes a counter of the inner loop grow. *)
Lemma healthEdgeStep_grows (ns : list FamilyNode) (m : FamilyNode)
    (c : nat * nat) (e : Edge) :
  (fst (healthEdgeStep ns m c e) = fst c
   \/ exists n, joins (id m) (id n) e /\ In n ns /\ type n <> member
                /\ riskLevel n = Some high)
  /\ (snd (healthEdgeStep ns m c e) = snd c
      \/ exists n, joins (id m) (id n) e /\ In n ns /\ type n <> member
                   /\ isAchievement n = Some true).
Proof.
  unfold healthEdgeStep.
  destruct (connectedIdOf m e) as [cid |] eqn:Ec; [| tauto].
  destruct (negb (truthy (Some cid))); [tauto |].
  destruct (find (fun n => id n =? cid) ns) as [cn |] eqn:Ef; [| tauto].
  apply find_some in Ef. destruct Ef as [Hin Hid].
  apply String.eqb_eq in Hid.
  destruct (NodeType_eqb (type cn) member) eqn:Et; [tauto |].
  assert (Hty : type cn <> member).
  { intros H. rewrite H in Et. discriminate Et. }
  assert (Hj : joins (id m) (id cn) e).
  { unfold connectedIdOf in Ec. unfold joins. rewrite Hid.
    destruct (source e =? id m) eqn:Es.
    - apply String.eqb_eq in Es. injection Ec as <-. tauto.
    - destruct (target e =? id m) eqn:Etg; [| discriminate Ec].
      apply String.eqb_eq in Etg. injection Ec as <-. tauto. }
  simpl. split.
  - destruct (riskLevel cn) as [[] |] eqn:Er; simpl;
      try (left; lia).
    right. exists cn. tauto.
  - destruct (isAchievement cn) as [[] |] eqn:Ea; simpl;
      try (left; lia).
    right. exists cn. tauto.
Qed.

Lemma health_counts_have_causes (ns : list FamilyNode) (m : FamilyNode)
    (es : list Edge) (c : nat * nat) :
  (fst (fold_left (healthEdgeStep ns m) es c) = fst c
   \/ exists e n, In e es /\ joins (id m) (id n) e /\ In n ns
                  /\ type n <> member /\ riskLevel n = Some high)
  /\ (snd (fold_left (healthEdgeStep ns m) es c) = snd c
      \/ exists e n, In e es /\ joins (id m) (id n) e /\ In n ns
                     /\ type n <> member /\ isAchievement n = Some true).
Proof.
  revert c. induction es as [| e es IH]; intros c; simpl; [tauto |].
  destruct (IH (healthEdgeStep ns m c e)) as [IHr IHa].
  destruct (healthEdgeStep_grows ns m c e) as [Hr Ha].
  split.
  - destruct IHr as [Heq | [e' [n [He' H]]]].
    + destruct Hr as [Hr | [n H]].
      * left. congruence.
      * right. exists e, n. tauto.
    + right. exists e', n. tauto.
  - destruct IHa as [Heq | [e' [n [He' H]]]].
    + destruct Ha as [Ha | [n H]].
      * left. congruence.
      * right. exists e, n. tauto.
    + right. exists e', n. tauto.
Qed.

(** The badges of a member come from what the viewer may see: an entry
    of [memberHealth] belongs to a member node of the gated graph; when
    it flags a risk, an edge of the gated graph joins the member to a
    non-member, high-risk node of the gated graph, and when it flags an
    achievement, to a non-member achievement node of the gated graph. *)
Theorem member_badges_come_from_gated_nodes
    (raw : FamilyGraph) (k : string) (h : HealthStatus) :
  JsMap.get (memberHealth raw) k = Some h ->
  (exists m, In m (nodes raw) /\ type m = member /\ id m = k)
  /\ (hasRisk h = true ->
      exists e n, In e (edges raw) /\ joins k (id n) e /\ In n (nodes raw)
                  /\ type n <> member /\ riskLevel n = Some high)
  /\ (hasAchievement h = true ->
      exists e n, In e (edges raw) /\ joins k (id n) e /\ In n (nodes raw)
                  /\ type n <> member /\ isAchievement n = Some true).
Proof.
  revert k h. unfold memberHealth.
  apply (fold_left_invariant (memberHealthStep raw)
           (fun health => forall k h, JsMap.get health k = Some h ->
              (exists m, In m (nodes raw) /\ type m = member /\ id m = k)
              /\ (hasRisk h = true ->
                  exists e n, In e (edges raw) /\ joins k (id n) e
                              /\ In n (nodes raw) /\ type n <> member
                              /\ riskLevel n = Some high)
              /\ (hasAchievement h = true ->
                  exists e n, In e (edges raw) /\ joins k (id n) e
                              /\ In n (nodes raw) /\ type n <> member
                              /\ isAchievement n = Some true))).
  - intros k h H. discriminate H.
  - intros health m Hm Hinv k h Hget.
    apply filter_In in Hm. destruct Hm as [Hm Hty].
    apply NodeType_eqb_eq in Hty.
    unfold memberHealthStep in Hget.
    destruct (String.eqb_spec (id m) k) as [<- | Hne].
    + rewrite get_set_same in Hget. injection Hget as <-. simpl.
      destruct (health_counts_have_causes (nodes raw) m (edges raw) (0, 0))
        as [Hr Ha].
      split; [exists m; tauto |]. split; intros Hpos.
      * destruct Hr as [Heq | H]; [| assumption].
        rewrite Heq in Hpos. discriminate Hpos.
      * destruct Ha as [Heq | H]; [| assumption].
        rewrite Heq in Hpos. discriminate Hpos.
    + rewrite get_set_other in Hget by congruence.
      now apply Hinv.
Qed.

Lemma member_badges_come_from_gated_nodes_witness :
  (exists m, In m (nodes (applyVisibilityGate Samples.household "m-dad"))
             /\ type m = member /\ id m = "m-kid")
  /\ (true = true ->
      exists e n,
        In e (edges (applyVisibilityGate Samples.household "m-dad"))
        /\ joins "m-kid" (id n) e
        /\ In n (nodes (applyVisibilityGate Samples.household "m-dad"))
        /\ type n <> member /\ riskLevel n = Some high)
  /\ (true = true ->
      exists e n,
        In e (edges (applyVisibilityGate Samples.household "m-dad"))
        /\ joins "m-kid" (id n) e
        /\ In n (nodes (applyVisibilityGate Samples.household "m-dad"))
        /\ type n <> member /\ isAchievement n = Some true).
Proof.
  apply (member_badges_come_from_gated_nodes
           (applyVisibilityGate Samples.household "m-dad") "m-kid"
           (mkHealthStatus true true 1 1)).
  reflexivity.
Defined.
